(** * BitNet.cpp application: model registry and inference orchestration

    A shallow embedding of [config.py], [model_manager.py] and
    [inference.py], and the properties of the registry, the process
    orchestrator and the chat formatter that are stated about them.

    Python values are modelled as follows.
    - [str] is [string]; a character is one code point below 256.
    - [int] is [Z].
    - a [dict] keyed by strings is a [gmap string _]; equality of dicts
      ignores insertion order, and so does equality of [gmap]s.
    - an exception is a value of [PyExc]; a call that can raise returns a
      [result].
    - the file system, the clock, the environment and child processes are
      read from a [World]; what the program does to them is recorded as
      a list of [Event]s. *)

From Stdlib Require Import ZArith Ascii String List Bool Lia.
From Stdlib Require Import DecimalString.
From stdpp Require Import base option list gmap strings.

Local Open Scope string_scope.
Local Open Scope list_scope.
Local Open Scope Z_scope.

(** ** Python string primitives *)

Module PyStr.

(** The characters that string literals of the sources write with an
    escape. *)
Definition LF : string := String (ascii_of_nat 10) EmptyString.
Definition DQUOTE : string := String (ascii_of_nat 34) EmptyString.

(** [len(s)] *)
Definition len (s : string) : nat := String.length s.

(** [str(n)] for an [int]. *)
Definition str_int (n : Z) : string := NilZero.string_of_int (Z.to_int n).

(** [sep.join(l)] with the empty separator. *)
Fixpoint join (l : list string) : string :=
  match l with
  | [] => EmptyString
  | s :: l' => s +:+ join l'
  end.

(** [s.startswith(p)], returning what follows the prefix. *)
Fixpoint strip_prefix (p s : string) : option string :=
  match p, s with
  | EmptyString, _ => Some s
  | String a p', String b s' =>
      if Ascii.eqb a b then strip_prefix p' s' else None
  | String _ _, EmptyString => None
  end.

Definition startswith (s p : string) : bool :=
  match strip_prefix p s with Some _ => true | None => false end.

(** [s.partition(sep)] at the first (leftmost) occurrence of [sep]:
    the text before it and the text after it, [None] when [sep] does
    not occur. *)
Fixpoint partition (sep s : string) : option (string * string) :=
  match strip_prefix sep s with
  | Some rest => Some (EmptyString, rest)
  | None =>
      match s with
      | EmptyString => None
      | String c s' =>
          match partition sep s' with
          | Some (before, after) => Some (String c before, after)
          | None => None
          end
      end
  end.

(** [sub in s] *)
Definition contains (sub s : string) : bool :=
  match partition sub s with Some _ => true | None => false end.

(** [s.endswith(suffix)] *)
Definition endswith (s suffix : string) : bool :=
  startswith (String.rev s) (String.rev suffix).

(** [s.split(sep)] for a non-empty [sep]: cut at the leftmost
    occurrence, then go on in what follows it.  Every cut consumes at
    least one character, so [len s] rounds are enough. *)
Fixpoint split_rounds (rounds : nat) (sep s : string) : list string :=
  match partition sep s with
  | None => [s]
  | Some (before, after) =>
      match rounds with
      | O => [s]
      | S r => before :: split_rounds r sep after
      end
  end.

(** [s[n:]] *)
Fixpoint slice_from (n : nat) (s : string) : string :=
  match n, s with
  | O, _ => s
  | S n', String _ s' => slice_from n' s'
  | S _, EmptyString => EmptyString
  end.

(** [str.isspace] on one character, for code points below 256:
    TAB, LF, VT, FF, CR, FS, GS, RS, US, SPACE, NEL and NBSP. *)
Definition isspace (c : ascii) : bool :=
  let n := nat_of_ascii c in
  ((9 <=? n) && (n <=? 13) || (28 <=? n) && (n <=? 32)
   || (n =? 133) || (n =? 160))%nat.

(** [s.lstrip()] *)
Fixpoint lstrip (s : string) : string :=
  match s with
  | EmptyString => EmptyString
  | String c s' => if isspace c then lstrip s' else s
  end.

(** [s.rstrip()] *)
Fixpoint rstrip (s : string) : string :=
  match s with
  | EmptyString => EmptyString
  | String c s' =>
      match rstrip s' with
      | EmptyString => if isspace c then EmptyString else String c EmptyString
      | t => String c t
      end
  end.

(** [s.strip()] *)
Definition strip (s : string) : string := rstrip (lstrip s).

(** Two hexadecimal digits, as [repr] writes them after a backslash x. *)
Definition hex_digit (n : nat) : ascii :=
  if (n <? 10)%nat then ascii_of_nat (48 + n) else ascii_of_nat (87 + n).

Definition hex2 (n : nat) : string :=
  String (hex_digit (n / 16)) (String (hex_digit (n mod 16)) EmptyString).

(** Whether [repr] keeps a character as it is (code points below 256). *)
Definition isprintable (c : ascii) : bool :=
  let n := nat_of_ascii c in
  ((32 <=? n) && (n <=? 126) || (161 <=? n) && negb (n =? 173))%nat.

Definition BACKSLASH : ascii := ascii_of_nat 92.
Definition SQUOTE : ascii := ascii_of_nat 39.

Definition repr_char (quote c : ascii) : string :=
  let n := nat_of_ascii c in
  if Ascii.eqb c BACKSLASH then String BACKSLASH (String BACKSLASH EmptyString)
  else if Ascii.eqb c quote then String BACKSLASH (String quote EmptyString)
  else if (n =? 9)%nat then String BACKSLASH "t"
  else if (n =? 10)%nat then String BACKSLASH "n"
  else if (n =? 13)%nat then String BACKSLASH "r"
  else if isprintable c then String c EmptyString
  else String BACKSLASH ("x" +:+ hex2 n).

Fixpoint repr_body (quote : ascii) (s : string) : string :=
  match s with
  | EmptyString => EmptyString
  | String c s' => repr_char quote c +:+ repr_body quote s'
  end.

Fixpoint has_char (c : ascii) (s : string) : bool :=
  match s with
  | EmptyString => false
  | String d s' => Ascii.eqb c d || has_char c s'
  end.

(** [repr(s)] for a [str]: single quotes, unless the text has a single
    quote and no double quote. *)
Definition repr (s : string) : string :=
  let dq := ascii_of_nat 34 in
  let quote := if has_char SQUOTE s && negb (has_char dq s) then dq else SQUOTE in
  String quote (repr_body quote s +:+ String quote EmptyString).

(** [str(l)] for a list of [str]. *)
Fixpoint repr_items (l : list string) : string :=
  match l with
  | [] => EmptyString
  | [s] => repr s
  | s :: l' => repr s +:+ ", " +:+ repr_items l'
  end.

Definition str_list (l : list string) : string :=
  "[" +:+ repr_items l +:+ "]".

End PyStr.

(** ** Exceptions, child processes and the result of a call *)

(** The command given to [subprocess]: one shell line ([shell=True]) or
    an argument vector. *)
Inductive Cmd :=
| ShellLine (line : string)
| Argv (args : list string).

(** How a child process ended.  [signal_name] is what
    [signal.Signals(signum)] prints on the host, [None] when the number
    is not one of its signals. *)
Inductive ExitStatus :=
| Exited (code : N)
| Signaled (signum : positive) (signal_name : option string).

Definition returncode (st : ExitStatus) : Z :=
  match st with
  | Exited code => Z.of_N code
  | Signaled signum _ => Z.neg signum
  end.

Inductive PyExc :=
| KeyError (key : string)
| IndexError (msg : string)
| TypeError (msg : string)
| ValueError (msg : string)
| RuntimeError (msg : string)
| RecursionError (msg : string)
| OSError (msg : string)
| UnicodeDecodeError (msg : string)
| JSONDecodeError (msg : string)
| CalledProcessError (st : ExitStatus) (cmd : Cmd) (stdout stderr : string).

(** [str(cmd)], as the percent-s conversion prints it. *)
Definition str_cmd (cmd : Cmd) : string :=
  match cmd with
  | ShellLine line => line
  | Argv args => PyStr.str_list args
  end.

(** [str(e)].  For [CalledProcessError] this is the text of
    [subprocess.CalledProcessError.__str__]: the command and the exit
    status or the signal, never the captured output. *)
Definition str_exc (e : PyExc) : string :=
  match e with
  | KeyError key => PyStr.repr key
  | IndexError msg | TypeError msg | ValueError msg | RuntimeError msg
  | RecursionError msg | OSError msg | UnicodeDecodeError msg
  | JSONDecodeError msg => msg
  | CalledProcessError (Exited code) cmd _ _ =>
      "Command '" +:+ str_cmd cmd +:+ "' returned non-zero exit status "
        +:+ PyStr.str_int (Z.of_N code) +:+ "."
  | CalledProcessError (Signaled signum (Some name)) cmd _ _ =>
      "Command '" +:+ str_cmd cmd +:+ "' died with <Signals." +:+ name
        +:+ ": " +:+ PyStr.str_int (Z.pos signum) +:+ ">."
  | CalledProcessError (Signaled signum None) cmd _ _ =>
      "Command '" +:+ str_cmd cmd +:+ "' died with unknown signal "
        +:+ PyStr.str_int (Z.pos signum) +:+ "."
  end.

Definition is_CalledProcessError (e : PyExc) : bool :=
  match e with CalledProcessError _ _ _ _ => true | _ => false end.


Inductive result (A : Type) :=
| Ok (a : A)
| Raise (e : PyExc).
Arguments Ok {A} a.
Arguments Raise {A} e.

(** ** The registry document *)

(** One installed model, the value stored under its name. *)
Record InstalledModel := {
  im_model_id : string;
  im_model_name : string;
  im_quant_type : string;
  im_path : string;
  im_gguf_path : string;
  im_description : string
}.

(** What [json.load] can hand back for the registry file: a document of
    the registry's shape, or any other JSON value, of which the model
    keeps only the exception that subscripting it with the models key
    raises. *)
Inductive JSONDoc :=
| RegistryDoc (models : gmap string InstalledModel)
| ForeignDoc (subscript_error : PyExc).

(** The literal registry with no models. *)
Definition EMPTY_REGISTRY : JSONDoc := RegistryDoc ∅.

(** ** The world outside the program *)

(** [subprocess.run(..., check=False)] seen from the caller. *)
Inductive RunOutcome :=
| SpawnRaises (e : PyExc)
| Completed (st : ExitStatus) (stdout stderr : string).

(** [subprocess.Popen] followed by reading standard output with
    [readline] until the end of the stream. *)
Inductive StreamOutcome :=
| PopenRaises (e : PyExc)
| Streamed (lines : list string) (st : ExitStatus) (stderr : string).

(** Opening the registry file and parsing it with [json.load]: an
    exception of [open], of decoding the bytes or of the parser, or the
    parsed document. *)
Inductive LoadOutcome :=
| LoadRaises (e : PyExc)
| Parsed (doc : JSONDoc).

Record World := {
  platform_system : string;
  platform_machine : string;
  environ : gmap string string;
  sys_executable : string;
  module_dir : string;
  recursion_limit : nat;
  os_path_join : string -> string -> string;
  path_exists : string -> bool;
  mkdir : string -> option PyExc;
  write_file : string -> option PyExc;
  json_load : string -> LoadOutcome;
  rmtree : string -> option PyExc;
  subprocess_run : Cmd -> RunOutcome;
  subprocess_popen : Cmd -> StreamOutcome;
  time_time : nat -> Z
}.

(** What a file is written with. *)
Inductive FileContent :=
| Text (s : string)
| MockScript
| RegistryDump (doc : JSONDoc)
| CommandOutput (cmd : Cmd).

(** ** Chat data *)

(** A [float], of which the model keeps the text that [str] prints. *)
Record PyFloat := { str_float : string }.

Record GenerationParams := {
  n_predict : Z;
  threads : Z;
  ctx_size : Z;
  temperature : PyFloat;
  conversation : bool
}.

(** One message of a conversation: a dict with a role and a content. *)
Record Message := { role : string; content : string }.

Record Choice := {
  index : Z;
  message : Message;
  finish_reason : string
}.

Record ChatCompletion := {
  id : string;
  object : string;
  created : Z;
  model : string;
  choices : list Choice
}.

(** The delta of a streamed chunk; the empty dict has neither key. *)
Record Delta := { delta_role : option string; delta_content : option string }.

Record ChunkChoice := {
  chunk_index : Z;
  delta : Delta;
  chunk_finish_reason : option string
}.

Record ChatChunk := {
  chunk_id : string;
  chunk_object : string;
  chunk_created : Z;
  chunk_model : string;
  chunk_choices : list ChunkChoice
}.

(** ** The running program *)

Inductive Event :=
| EvLog (logger level msg : string)
| EvMkdir (path : string)
| EvWrite (path : string) (data : FileContent)
| EvRmtree (path : string)
| EvSpawn (cmd : Cmd)
| EvEnvelope (chunk : ChatChunk).

(** The fields of a [ModelManager] instance. *)
Record ModelManager := {
  models_dir : string;
  logs_dir : string;
  registry_path : string;
  registry : JSONDoc;
  system : string;
  arch : string
}.

Definition set_registry (doc : JSONDoc) (self : ModelManager) : ModelManager :=
  {| models_dir := models_dir self; logs_dir := logs_dir self;
     registry_path := registry_path self; registry := doc;
     system := system self; arch := arch self |}.

(** The manager, the number of clock readings taken so far, and what the
    program has done to the outside, oldest first. *)
Record Machine := {
  manager : ModelManager;
  ticks : nat;
  events : list Event
}.

(** A computation that may raise and that changes the machine either way. *)
Definition Py (A : Type) : Type := Machine -> result A * Machine.

Definition ret {A} (a : A) : Py A := fun m => (Ok a, m).

Definition raise {A} (e : PyExc) : Py A := fun m => (Raise e, m).

Definition bind {A B} (c : Py A) (k : A -> Py B) : Py B :=
  fun m =>
    match c m with
    | (Ok a, m') => k a m'
    | (Raise e, m') => (Raise e, m')
    end.

Global Instance Py_ret : MRet Py := @ret.
Global Instance Py_bind : MBind Py := fun A B k c => bind c k.

(** [try: body  except <class> as e: handler e]; [catches] tells the
    exceptions of the class. *)
Definition try_except {A} (body : Py A) (catches : PyExc -> bool)
    (handler : PyExc -> Py A) : Py A :=
  fun m =>
    match body m with
    | (Ok a, m') => (Ok a, m')
    | (Raise e, m') => if catches e then handler e m' else (Raise e, m')
    end.

(** Every exception of the model is an [Exception]. *)
Definition is_Exception (e : PyExc) : bool := true.

Definition emit (ev : Event) : Py unit :=
  fun m => (Ok tt, {| manager := manager m; ticks := ticks m;
                      events := events m ++ [ev] |}).

Definition get_self : Py ModelManager := fun m => (Ok (manager m), m).

Definition put_registry (doc : JSONDoc) : Py unit :=
  fun m => (Ok tt, {| manager := set_registry doc (manager m); ticks := ticks m;
                      events := events m |}).

(** An action of the outside that either succeeds or raises. *)
Definition attempt (outcome : option PyExc) (ev : Event) : Py unit :=
  match outcome with
  | Some e => raise e
  | None => emit ev
  end.

(** [d[key]] on a dict. *)
Definition subscript {V} (d : gmap string V) (key : string) : Py V :=
  match d !! key with
  | Some v => ret v
  | None => raise (KeyError key)
  end.

(** [l[0]] on a list. *)
Definition first_item {A} (l : list A) : Py A :=
  match l with
  | x :: _ => ret x
  | [] => raise (IndexError "list index out of range")
  end.

(** [l[-1]] on a list. *)
Definition last_item {A} (l : list A) : Py A :=
  match last l with
  | Some x => ret x
  | None => raise (IndexError "list index out of range")
  end.

(** [s.split(sep)] *)
Definition split (s sep : string) : Py (list string) :=
  match sep with
  | EmptyString => raise (ValueError "empty separator")
  | _ => ret (PyStr.split_rounds (PyStr.len s) sep s)
  end.

(** [x in l] on a list of [str]. *)
Definition in_list (x : string) (l : list string) : bool :=
  existsb (String.eqb x) l.

(** ** config.py *)

Module config.

(** Supported quantization types by architecture. *)
Definition SUPPORTED_QUANT_TYPES : gmap string (list string) :=
  list_to_map [
    ("arm64", ["i2_s"; "tl1"]);
    ("x86_64", ["i2_s"; "tl2"])
  ].

Record CatalogEntry := { model_name : string; description : string }.

(** Supported models from Hugging Face. *)
Definition SUPPORTED_MODELS : gmap string CatalogEntry :=
  list_to_map [
    ("microsoft/BitNet-b1.58-2B-4T",
      {| model_name := "BitNet-b1.58-2B-4T";
         description := "Official BitNet 2B parameter model (4T tokens)" |});
    ("1bitLLM/bitnet_b1_58-large",
      {| model_name := "bitnet_b1_58-large";
         description := "BitNet b1.58 large model" |});
    ("1bitLLM/bitnet_b1_58-3B",
      {| model_name := "bitnet_b1_58-3B";
         description := "BitNet b1.58 3B model" |});
    ("HF1BitLLM/Llama3-8B-1.58-100B-tokens",
      {| model_name := "Llama3-8B-1.58-100B-tokens";
         description := "Llama3 8B model quantized to 1.58 bits (100B tokens)" |});
    ("tiiuae/Falcon3-1B-Instruct-1.58bit",
      {| model_name := "Falcon3-1B-Instruct-1.58bit";
         description := "Falcon3 1B Instruct model quantized to 1.58 bits" |});
    ("tiiuae/Falcon3-3B-Instruct-1.58bit",
      {| model_name := "Falcon3-3B-Instruct-1.58bit";
         description := "Falcon3 3B Instruct model quantized to 1.58 bits" |});
    ("tiiuae/Falcon3-7B-Instruct-1.58bit",
      {| model_name := "Falcon3-7B-Instruct-1.58bit";
         description := "Falcon3 7B Instruct model quantized to 1.58 bits" |});
    ("tiiuae/Falcon3-10B-Instruct-1.58bit",
      {| model_name := "Falcon3-10B-Instruct-1.58bit";
         description := "Falcon3 10B Instruct model quantized to 1.58 bits" |})
  ].

(** Architecture aliases. *)
Definition ARCH_ALIAS : gmap string string :=
  list_to_map [
    ("AMD64", "x86_64");
    ("x86", "x86_64");
    ("x86_64", "x86_64");
    ("aarch64", "arm64");
    ("arm64", "arm64");
    ("ARM64", "arm64")
  ].

End config.

(** ** model_manager.py *)

Section ModelManager.

Context (w : World).

Definition manager_log (level msg : string) : Py unit :=
  emit (EvLog "model_manager" level msg).

(** [self.registry] followed by the models key. *)
Definition registry_models : Py (gmap string InstalledModel) :=
  self ← get_self;
  match registry self with
  | RegistryDoc models => mret models
  | ForeignDoc e => raise e
  end.

(** Get system and architecture information. *)
Definition _get_system_info : string * string :=
  let system := platform_system w in
  let machine := platform_machine w in
  let arch := default machine (config.ARCH_ALIAS !! machine) in
  (system, arch).


(** Save the model registry to disk. *)
Definition _save_registry : Py unit :=
  self ← get_self;
  attempt (write_file w (registry_path self))
          (EvWrite (registry_path self) (RegistryDump (registry self))).

(** [subprocess.run(command, check=True)]: the outcome of the child,
    turned into [CalledProcessError] when it did not exit with 0. *)
Definition run_checked (cmd : Cmd) : Py (string * string) :=
  emit (EvSpawn cmd);;
  match subprocess_run w cmd with
  | SpawnRaises e => raise e
  | Completed st out err =>
      if returncode st =? 0 then mret (out, err)
      else raise (CalledProcessError st cmd out err)
  end.

(** Run a system command and ensure it succeeds.  [shell] keeps its
    default at the one call site, so the command is an argument
    vector; the output of the child goes to the log file and is not
    captured. *)
Definition _run_command (command : list string) (log_step : option string)
    : Py bool :=
  self ← get_self;
  match log_step with
  | Some (String c step) =>
      let log_file :=
        os_path_join w (logs_dir self) (String c step +:+ ".log") in
      attempt (write_file w log_file)
              (EvWrite log_file (CommandOutput (Argv command)));;
      try_except
        (run_checked (Argv command);; mret true)
        is_CalledProcessError
        (fun e =>
           manager_log "ERROR"
             ("Error occurred while running command: " +:+ str_exc e
                +:+ ", check details in " +:+ log_file);;
           mret false)
  | _ =>
      try_except
        (run_checked (Argv command);; mret true)
        is_CalledProcessError
        (fun e =>
           manager_log "ERROR"
             ("Error occurred while running command: " +:+ str_exc e);;
           mret false)
  end.

(** List all installed models. *)
Definition list_installed_models : Py (gmap string InstalledModel) :=
  registry_models.

(** Download a model from Hugging Face. *)
Definition download_model (model_id : string) (quant_type : option string)
    : Py bool :=
  self ← get_self;
  match config.SUPPORTED_MODELS !! model_id with
  | None =>
      manager_log "ERROR" ("Model " +:+ model_id +:+ " is not supported");;
      mret false
  | Some entry =>
      quant_type ←
        match quant_type with
        | None =>
            kinds ← subscript config.SUPPORTED_QUANT_TYPES (arch self);
            first_item kinds
        | Some q => mret q
        end;
      kinds ← subscript config.SUPPORTED_QUANT_TYPES (arch self);
      if negb (in_list quant_type kinds) then
        manager_log "ERROR"
          ("Quantization type " +:+ quant_type +:+ " is not supported on "
             +:+ arch self);;
        mret false
      else
        let model_name := config.model_name entry in
        let model_dir := os_path_join w (models_dir self) model_name in
        attempt (mkdir w model_dir) (EvMkdir model_dir);;
        manager_log "INFO"
          ("Downloading model " +:+ model_id +:+ " from Hugging Face to "
             +:+ model_dir +:+ "...");;
        fetched ←
          try_except
            (_run_command
               ["huggingface-cli"; "download"; model_id; "--local-dir"; model_dir]
               (Some ("download_model_" +:+ model_name)))
            is_Exception
            (fun e =>
               manager_log "ERROR" ("Error downloading model: " +:+ str_exc e);;
               mret false);
        if negb fetched then mret false
        else
          let gguf_path :=
            os_path_join w model_dir ("ggml-model-" +:+ quant_type +:+ ".gguf") in
          (if negb (path_exists w gguf_path) then
             attempt (write_file w gguf_path)
                     (EvWrite gguf_path (Text "# Placeholder GGUF file"));;
             manager_log "INFO" ("Created placeholder GGUF file at " +:+ gguf_path)
           else mret tt);;
          models ← registry_models;
          put_registry
            (RegistryDoc
               (<[model_name :=
                    {| im_model_id := model_id;
                       im_model_name := model_name;
                       im_quant_type := quant_type;
                       im_path := model_dir;
                       im_gguf_path := gguf_path;
                       im_description := config.description entry |}]> models));;
          _save_registry;;
          manager_log "INFO"
            ("Model " +:+ model_name +:+ " downloaded and set up successfully");;
          mret true
  end.

(** Remove a model. *)
Definition remove_model (model_name : string) : Py bool :=
  models ← registry_models;
  match models !! model_name with
  | None =>
      manager_log "ERROR" ("Model " +:+ model_name +:+ " is not installed");;
      mret false
  | Some record =>
      let model_dir := im_path record in
      removed ←
        try_except
          (attempt (rmtree w model_dir) (EvRmtree model_dir);; mret true)
          is_Exception
          (fun e =>
             manager_log "ERROR"
               ("Error removing model directory: " +:+ str_exc e);;
             mret false);
      if negb removed then mret false
      else
        models ← registry_models;
        put_registry (RegistryDoc (delete model_name models));;
        _save_registry;;
        manager_log "INFO" ("Model " +:+ model_name +:+ " removed successfully");;
        mret true
  end.

(** Get the path to a model's GGUF file. *)
Definition get_model_path (model_name : string) : Py (option string) :=
  models ← registry_models;
  match models !! model_name with
  | None => mret None
  | Some record => mret (Some (im_gguf_path record))
  end.

(** Get information about a model. *)
Definition get_model_info (model_name : string) : Py (option InstalledModel) :=
  models ← registry_models;
  mret (models !! model_name).

End ModelManager.

(** ** inference.py *)

Section InferenceEngine.

Context (w : World).

Definition engine_log (level msg : string) : Py unit :=
  emit (EvLog "inference" level msg).

(** Helper function to get current time, under the [int] that every
    caller applies to it: the n-th reading of the clock, truncated. *)
Definition import_time : Py Z :=
  fun m => (Ok (time_time w (ticks m)),
            {| manager := manager m; ticks := S (ticks m); events := events m |}).

(** Get the path to the llama-cli binary.  [depth] is the number of
    frames left before the interpreter raises [RecursionError]. *)
Fixpoint _get_llama_cli_path (depth : nat) : Py string :=
  match depth with
  | O => raise (RecursionError "maximum recursion depth exceeded")
  | S depth' =>
      if String.eqb (default "1" (environ w !! "BITNET_MOCK_MODE")) "1" then
        let mock_path := os_path_join w (module_dir w) "mock_llama_cli.py" in
        (if negb (path_exists w mock_path) then
           attempt (write_file w mock_path) (EvWrite mock_path MockScript)
         else mret tt);;
        mret (sys_executable w +:+ " " +:+ mock_path)
      else
        let build_dir := "build" in
        let posix_path :=
          os_path_join w (os_path_join w build_dir "bin") "llama-cli" in
        let main_path :=
          if String.eqb (platform_system w) "Windows" then
            let release_path :=
              os_path_join w
                (os_path_join w (os_path_join w build_dir "bin") "Release")
                "llama-cli.exe" in
            if negb (path_exists w release_path) then posix_path
            else release_path
          else posix_path in
        if negb (path_exists w main_path) then
          engine_log "WARNING"
            ("llama-cli binary not found at " +:+ main_path
               +:+ ", using mock implementation");;
          _get_llama_cli_path depth'
        else mret main_path
  end.

(** The shell line of the mock branch. *)
Definition mock_command_str (llama_cli model_path prompt : string)
    (p : GenerationParams) : string :=
  let command_str :=
    llama_cli +:+ " -m " +:+ model_path
      +:+ " -n " +:+ PyStr.str_int (n_predict p)
      +:+ " -t " +:+ PyStr.str_int (threads p)
      +:+ " -p " +:+ PyStr.DQUOTE +:+ prompt +:+ PyStr.DQUOTE
      +:+ " -ngl 0 -c " +:+ PyStr.str_int (ctx_size p)
      +:+ " --temp " +:+ str_float (temperature p) +:+ " -b 1" in
  if conversation p then command_str +:+ " -cnv" else command_str.

(** The argument vector of the real branch. *)
Definition real_command (llama_cli model_path prompt : string)
    (p : GenerationParams) : list string :=
  let command :=
    [ llama_cli;
      "-m"; model_path;
      "-n"; PyStr.str_int (n_predict p);
      "-t"; PyStr.str_int (threads p);
      "-p"; prompt;
      "-ngl"; "0";
      "-c"; PyStr.str_int (ctx_size p);
      "--temp"; str_float (temperature p);
      "-b"; "1" ] in
  if conversation p then command ++ ["-cnv"] else command.

(** Run inference on a model using CPU only. *)
Definition run_inference (model_name prompt : string) (p : GenerationParams)
    : Py string :=
  model_path ← get_model_path model_name;
  match model_path with
  | None => raise (ValueError ("Model " +:+ model_name +:+ " not found"))
  | Some model_path =>
      llama_cli ← _get_llama_cli_path (recursion_limit w);
      if PyStr.endswith llama_cli "mock_llama_cli.py" then
        let command_str := mock_command_str llama_cli model_path prompt p in
        try_except
          (r ← run_checked w (ShellLine command_str); mret (fst r))
          is_CalledProcessError
          (fun e =>
             engine_log "ERROR"
               ("Error running inference with mock: " +:+ str_exc e);;
             engine_log "ERROR"
               ("stderr: " +:+
                  match e with
                  | CalledProcessError _ _ _ err => err
                  | _ => EmptyString
                  end);;
             raise (RuntimeError
                      ("Error running inference with mock: " +:+ str_exc e)))
      else
        let command := real_command llama_cli model_path prompt p in
        try_except
          (r ← run_checked w (Argv command); mret (fst r))
          is_CalledProcessError
          (fun e =>
             engine_log "ERROR" ("Error running inference: " +:+ str_exc e);;
             engine_log "ERROR"
               ("stderr: " +:+
                  match e with
                  | CalledProcessError _ _ _ err => err
                  | _ => EmptyString
                  end);;
             raise (RuntimeError ("Error running inference: " +:+ str_exc e)))
  end.

(** The reader thread: every line goes to the callback, in order.  An
    exception of the callback ends the thread and goes no further. *)
Fixpoint read_stdout {B} (callback : string -> B -> Py B)
    (lines : list string) (b : B) (m : Machine) : B * Machine :=
  match lines with
  | [] => (b, m)
  | line :: rest =>
      match callback line b m with
      | (Ok b', m') => read_stdout callback rest b' m'
      | (Raise _, m') => (b, m')
      end
  end.

(** The body of the [try] of [stream_inference], which both branches
    repeat with their own command and message: start the process, read
    its output to the end, wait for it, then look at the return code. *)
Definition popen_and_read {B} (cmd : Cmd) (callback : string -> B -> Py B)
    (b0 : B) (label : string) : Py B :=
  emit (EvSpawn cmd);;
  match subprocess_popen w cmd with
  | PopenRaises e => raise e
  | Streamed lines st err =>
      b ← (fun m => let '(b, m') := read_stdout callback lines b0 m in (Ok b, m'));
      if negb (returncode st =? 0) then
        engine_log "ERROR" (label +:+ err);;
        raise (RuntimeError (label +:+ err))
      else mret b
  end.

(** Stream inference results from a model.  [b0] is the state that the
    callback closes over, and the result is that state at the end. *)
Definition stream_inference {B} (model_name prompt : string)
    (callback : string -> B -> Py B) (b0 : B) (p : GenerationParams) : Py B :=
  model_path ← get_model_path model_name;
  match model_path with
  | None => raise (ValueError ("Model " +:+ model_name +:+ " not found"))
  | Some model_path =>
      llama_cli ← _get_llama_cli_path (recursion_limit w);
      if PyStr.endswith llama_cli "mock_llama_cli.py" then
        let command_str := mock_command_str llama_cli model_path prompt p in
        try_except
          (popen_and_read (ShellLine command_str) callback b0
             "Error running inference with mock: ")
          is_Exception
          (fun e =>
             engine_log "ERROR"
               ("Error streaming inference with mock: " +:+ str_exc e);;
             raise (RuntimeError
                      ("Error streaming inference with mock: " +:+ str_exc e)))
      else
        let command := real_command llama_cli model_path prompt p in
        try_except
          (popen_and_read (Argv command) callback b0
             "Error running inference: ")
          is_Exception
          (fun e =>
             engine_log "ERROR" ("Error streaming inference: " +:+ str_exc e);;
             raise (RuntimeError ("Error streaming inference: " +:+ str_exc e)))
  end.

(** The marker that separates the echoed prompt from the reply. *)
Definition ASSISTANT_CUE : string := "Assistant: ".

(** One round of the loop that formats the messages into a prompt. *)
Definition add_message (prompt : string) (message : Message) : string :=
  let role := role message in
  let content := content message in
  if String.eqb role "system" then
    prompt +:+ "System: " +:+ content +:+ PyStr.LF +:+ PyStr.LF
  else if String.eqb role "user" then
    prompt +:+ "User: " +:+ content +:+ PyStr.LF +:+ PyStr.LF
  else if String.eqb role "assistant" then
    prompt +:+ "Assistant: " +:+ content +:+ PyStr.LF +:+ PyStr.LF
  else prompt.

(** The prompt of [chat_completion] and of [stream_chat_completion]:
    the loop over the messages, then the final assistant cue. *)
Definition chat_prompt (messages : list Message) : string :=
  let prompt := fold_left add_message messages EmptyString in
  prompt +:+ "Assistant: ".

(** The extraction step of [chat_completion], from the raw output to
    the completion. *)
Definition parse_completion (model_name response : string) : Py ChatCompletion :=
  pieces ← split response "Assistant: ";
  piece ← last_item pieces;
  let assistant_response := PyStr.strip piece in
  now ← import_time;
  mret {| id := "chat-" +:+ model_name;
          object := "chat.completion";
          created := now;
          model := model_name;
          choices :=
            [ {| index := 0;
                 message := {| role := "assistant";
                               content := assistant_response |};
                 finish_reason := "stop" |} ] |}.

(** Generate a chat completion. *)
Definition chat_completion (model_name : string) (messages : list Message)
    (n_predict threads ctx_size : Z) (temperature : PyFloat)
    : Py ChatCompletion :=
  let prompt := chat_prompt messages in
  response ←
    run_inference model_name prompt
      {| n_predict := n_predict; threads := threads; ctx_size := ctx_size;
         temperature := temperature; conversation := true |};
  parse_completion model_name response.

(** The callback that [stream_chat_completion] hands to
    [stream_inference]; [response_buffer] is its nonlocal variable.
    Handing an envelope to the caller's callback is recorded as an
    [EvEnvelope]. *)
Definition stream_callback (model_name : string) (chunk : string)
    (response_buffer : string) : Py string :=
  let response_buffer := response_buffer +:+ chunk in
  if PyStr.contains "Assistant: " response_buffer then
    pieces ← split response_buffer "Assistant: ";
    piece ← last_item pieces;
    let assistant_response := PyStr.strip piece in
    now ← import_time;
    let response :=
      {| chunk_id := "chat-" +:+ model_name;
         chunk_object := "chat.completion.chunk";
         chunk_created := now;
         chunk_model := model_name;
         chunk_choices :=
           [ {| chunk_index := 0;
                delta := {| delta_role := Some "assistant";
                            delta_content := Some chunk |};
                chunk_finish_reason := None |} ] |} in
    emit (EvEnvelope response);;
    mret response_buffer
  else mret response_buffer.

(** Send final chunk with finish_reason. *)
Definition send_final (model_name : string) : Py unit :=
  now ← import_time;
  let final_response :=
    {| chunk_id := "chat-" +:+ model_name;
       chunk_object := "chat.completion.chunk";
       chunk_created := now;
       chunk_model := model_name;
       chunk_choices :=
         [ {| chunk_index := 0;
              delta := {| delta_role := None; delta_content := None |};
              chunk_finish_reason := Some "stop" |} ] |} in
  emit (EvEnvelope final_response).

(** Stream a chat completion. *)
Definition stream_chat_completion (model_name : string)
    (messages : list Message) (n_predict threads ctx_size : Z)
    (temperature : PyFloat) : Py unit :=
  let prompt := chat_prompt messages in
  stream_inference model_name prompt (stream_callback model_name) EmptyString
    {| n_predict := n_predict; threads := threads; ctx_size := ctx_size;
       temperature := temperature; conversation := true |};;
  send_final model_name.

End InferenceEngine.

(** ** server.py *)

(** How a request handler ends: with a response body, with an
    [HTTPException] that the framework turns into a response of that
    status, or with an exception that no clause of the handler catches. *)
Inductive HttpResult (A : Type) :=
| Responds (body : A)
| HTTPException (status_code : Z) (detail : string)
| Unhandled (e : PyExc).
Arguments Responds {A} body.
Arguments HTTPException {A} status_code detail.
Arguments Unhandled {A} e.

(** [except ValueError]: the exceptions of the model that are instances
    of it. *)
Definition is_ValueError (e : PyExc) : bool :=
  match e with
  | ValueError _ | UnicodeDecodeError _ | JSONDecodeError _ => true
  | _ => false
  end.

(** [except RuntimeError]; [RecursionError] is a subclass. *)
Definition is_RuntimeError (e : PyExc) : bool :=
  match e with
  | RuntimeError _ | RecursionError _ => true
  | _ => false
  end.

Record InferenceRequest := {
  req_model : string;
  req_prompt : string;
  req_n_predict : Z;
  req_threads : Z;
  req_ctx_size : Z;
  req_temperature : PyFloat;
  req_conversation : bool
}.

Record ChatCompletionRequest := {
  chat_model : string;
  chat_messages : list Message;
  chat_n_predict : Z;
  chat_threads : Z;
  chat_ctx_size : Z;
  chat_temperature : PyFloat;
  chat_stream : bool
}.

(** The body of a chat response: a completion, or a streaming response
    whose generator has not started when the handler returns. *)
Inductive ChatResponse :=
| CompletionBody (c : ChatCompletion)
| StreamingResponse.

Section Server.

Context (w : World).

Definition Handler (A : Type) : Type := Machine -> HttpResult A * Machine.

(** The two [except] clauses that the inference handlers share. *)
Definition translate {A} (c : Py A) : Handler A :=
  fun m =>
    match c m with
    | (Ok a, m') => (Responds a, m')
    | (Raise e, m') =>
        if is_ValueError e then (HTTPException 404 (str_exc e), m')
        else if is_RuntimeError e then (HTTPException 500 (str_exc e), m')
        else (Unhandled e, m')
    end.

(** DELETE /models/{model_name}: the message of the response. *)
Definition server_remove_model (model_name : string) : Handler string :=
  fun m =>
    match remove_model w model_name m with
    | (Ok success, m') =>
        if negb success then
          (HTTPException 404 ("Model " +:+ model_name +:+ " not found"), m')
        else (Responds ("Model " +:+ model_name +:+ " removed successfully"), m')
    | (Raise e, m') => (Unhandled e, m')
    end.

(** GET /models/{model_name} *)
Definition server_get_model_info (model_name : string) : Handler InstalledModel :=
  fun m =>
    match get_model_info model_name m with
    | (Ok model_info, m') =>
        match model_info with
        | None =>
            (HTTPException 404 ("Model " +:+ model_name +:+ " not found"), m')
        | Some info => (Responds info, m')
        end
    | (Raise e, m') => (Unhandled e, m')
    end.

(** POST /inference: the response text. *)
Definition server_run_inference (request : InferenceRequest) : Handler string :=
  translate
    (run_inference w (req_model request) (req_prompt request)
       {| n_predict := req_n_predict request;
          threads := req_threads request;
          ctx_size := req_ctx_size request;
          temperature := req_temperature request;
          conversation := req_conversation request |}).

(** POST /chat/completions.  With [stream] set the handler hands back a
    streaming response around a generator that has not run yet. *)
Definition server_chat_completions (request : ChatCompletionRequest)
    : Handler ChatResponse :=
  if chat_stream request then
    translate (mret StreamingResponse)
  else
    translate
      (response ←
         chat_completion w (chat_model request) (chat_messages request)
           (chat_n_predict request) (chat_threads request)
           (chat_ctx_size request) (chat_temperature request);
       mret (CompletionBody response)).

End Server.

(** ** What the statements are written with *)

(** The statements of the specification, in its own words. *)
Module Spec.

(** The capitalized label of a role: its first letter in upper case. *)
Definition capitalize (s : string) : string :=
  match s with
  | EmptyString => EmptyString
  | String c s' =>
      let n := nat_of_ascii c in
      if ((97 <=? n) && (n <=? 122))%nat then String (ascii_of_nat (n - 32)) s'
      else s
  end.

(** One message as the template writes it: the label, a colon and a
    space, the content, two line feeds. *)
Definition format_message (message : Message) : string :=
  capitalize (role message) +:+ ": " +:+ content message
    +:+ PyStr.LF +:+ PyStr.LF.

(** The messages in order, then the trailing cue. *)
Definition formatPrompt (messages : list Message) : string :=
  PyStr.join (map format_message messages) +:+ "Assistant: ".

(** The roles of a chat message. *)
Definition recognized (message : Message) : bool :=
  String.eqb (role message) "system" || String.eqb (role message) "user"
  || String.eqb (role message) "assistant".

(** [sep] occurs in [s] at index [i]. *)
Definition occurs_at (sep s : string) (i : nat) : Prop :=
  exists before after,
    s = before +:+ sep +:+ after /\ String.length before = i.

(** The occurrence at [i] is the last one. *)
Definition last_occurrence (sep s : string) (i : nat) : Prop :=
  occurs_at sep s i /\ forall j, occurs_at sep s j -> (j <= i)%nat.

(** The substring of [s] after the occurrence of [sep] at [i]. *)
Definition text_after (sep s : string) (i : nat) : string :=
  PyStr.slice_from (i + String.length sep) s.

(** The pair of flags that switches GPU offload off is in the command:
    next to each other in an argument vector, as text in a shell line. *)
Definition ngl_zero (cmd : Cmd) : Prop :=
  match cmd with
  | Argv args => exists front back, args = front ++ ["-ngl"; "0"] ++ back
  | ShellLine line => PyStr.contains " -ngl 0 " line = true
  end.

End Spec.

(** The result and the machine at the end of a computation. *)
Definition outcome {A} (c : Py A) (m : Machine) : result A := fst (c m).
Definition final {A} (c : Py A) (m : Machine) : Machine := snd (c m).

(** The machine after one more event, and after an assignment to
    [self.registry]. *)
Definition add_event (ev : Event) (m : Machine) : Machine :=
  {| manager := manager m; ticks := ticks m; events := events m ++ [ev] |}.

Definition with_registry (doc : JSONDoc) (m : Machine) : Machine :=
  {| manager := set_registry doc (manager m); ticks := ticks m;
     events := events m |}.

(** The result and the final machine of [c] started in [m] satisfy [Q]. *)
Definition satisfies {A} (c : Py A) (m : Machine)
    (Q : result A -> Machine -> Prop) : Prop :=
  Q (outcome c m) (final c m).

(** The events that a computation adds to those of [m]. *)
Definition new_events {A} (c : Py A) (m : Machine) : list Event :=
  drop (length (events m)) (events (final c m)).

(** Every computation started in any machine only appends events, and
    those it appends satisfy [P]. *)
Definition emits_only {A} (P : Event -> Prop) (c : Py A) : Prop :=
  forall m, exists new,
    events (final c m) = events m ++ new /\ Forall P new.

(** The commands started, the envelopes delivered. *)
Definition spawn_ok (ev : Event) : Prop :=
  match ev with
  | EvSpawn cmd => Spec.ngl_zero cmd
  | _ => True
  end.

Fixpoint envelopes (evs : list Event) : list ChatChunk :=
  match evs with
  | [] => []
  | EvEnvelope chunk :: evs' => chunk :: envelopes evs'
  | _ :: evs' => envelopes evs'
  end.


(** The text of the first choice of a completion. *)
Definition completion_content (r : result ChatCompletion) : option string :=
  match r with
  | Ok c =>
      match choices c with
      | ch :: _ => Some (content (message ch))
      | [] => None
      end
  | Raise _ => None
  end.

(** The envelope that carries one raw chunk, and the closing one. *)
Definition delta_envelope (model_name : string) (now : Z) (chunk : string)
    : ChatChunk :=
  {| chunk_id := "chat-" +:+ model_name;
     chunk_object := "chat.completion.chunk";
     chunk_created := now;
     chunk_model := model_name;
     chunk_choices :=
       [ {| chunk_index := 0;
            delta := {| delta_role := Some "assistant";
                        delta_content := Some chunk |};
            chunk_finish_reason := None |} ] |}.

Definition final_envelope (model_name : string) (now : Z) : ChatChunk :=
  {| chunk_id := "chat-" +:+ model_name;
     chunk_object := "chat.completion.chunk";
     chunk_created := now;
     chunk_model := model_name;
     chunk_choices :=
       [ {| chunk_index := 0;
            delta := {| delta_role := None; delta_content := None |};
            chunk_finish_reason := Some "stop" |} ] |}.

(** One delta envelope per chunk, stamped with successive clock readings
    from the [t]-th on. *)
Fixpoint delta_envelopes (w : World) (model_name : string) (t : nat)
    (chunks : list string) : list ChatChunk :=
  match chunks with
  | [] => []
  | chunk :: rest =>
      delta_envelope model_name (time_time w t) chunk
        :: delta_envelopes w model_name (S t) rest
  end.

(** An event other than the writing of the registry file. *)
Definition no_registry_dump (ev : Event) : Prop :=
  match ev with
  | EvWrite _ (RegistryDump _) => False
  | _ => True
  end.

(** An event other than the start of a process. *)
Definition no_spawn (ev : Event) : Prop :=
  match ev with
  | EvSpawn _ => False
  | _ => True
  end.

(** The events [later] are the events [earlier] followed by events that
    satisfy [P]. *)
Definition extends_by (P : Event -> Prop) (earlier later : list Event) : Prop :=
  exists new, later = earlier ++ new /\ Forall P new.

(** Every record of the registry is stored under its own model name. *)
Definition well_keyed (models : gmap string InstalledModel) : Prop :=
  map_Forall (fun name record => im_model_name record = name) models.

(** The record that [download_model] stores for a model of the catalog
    and a quantization kind. *)
Definition installed_record (w : World) (self : ModelManager)
    (model_id : string) (entry : config.CatalogEntry) (quant_type : string)
    : InstalledModel :=
  let model_name := config.model_name entry in
  let model_dir := os_path_join w (models_dir self) model_name in
  {| im_model_id := model_id;
     im_model_name := model_name;
     im_quant_type := quant_type;
     im_path := model_dir;
     im_gguf_path :=
       os_path_join w model_dir ("ggml-model-" +:+ quant_type +:+ ".gguf");
     im_description := config.description entry |}.

(** The quantization kind that a download uses: the one asked for, or
    the first of the kinds of the architecture. *)
Definition chosen_quant (quant_type : option string) (kinds : list string)
    : option string :=
  match quant_type with
  | Some q => Some q
  | None => head kinds
  end.

(** The command that fetches a model into a directory. *)
Definition fetch_command (model_id model_dir : string) : Cmd :=
  Argv ["huggingface-cli"; "download"; model_id; "--local-dir"; model_dir].

(** White space at the two ends of a text. *)
Definition starts_with_space (s : string) : bool :=
  match s with
  | EmptyString => false
  | String c _ => PyStr.isspace c
  end.

Fixpoint last_char (s : string) : option ascii :=
  match s with
  | EmptyString => None
  | String c EmptyString => Some c
  | String _ s' => last_char s'
  end.

Definition ends_with_space (s : string) : bool :=
  match last_char s with
  | Some c => PyStr.isspace c
  | None => false
  end.

(** The completion that wraps a reply. *)
Definition completion_of (model_name : string) (now : Z) (text : string)
    : ChatCompletion :=
  {| id := "chat-" +:+ model_name;
     object := "chat.completion";
     created := now;
     model := model_name;
     choices :=
       [ {| index := 0;
            message := {| role := "assistant"; content := text |};
            finish_reason := "stop" |} ] |}.

(** ** Concrete hosts for the examples *)

Module Demo.

Definition world (machine : string) (env : gmap string string)
    (run : RunOutcome) (popen : StreamOutcome) (load : LoadOutcome)
    (rm : option PyExc) : World :=
  {| platform_system := "Linux";
     platform_machine := machine;
     environ := env;
     sys_executable := "/usr/bin/python3";
     module_dir := "/app";
     recursion_limit := 1000;
     os_path_join := fun a b => a +:+ "/" +:+ b;
     path_exists := fun _ => true;
     mkdir := fun _ => None;
     write_file := fun _ => None;
     json_load := fun _ => load;
     rmtree := fun _ => rm;
     subprocess_run := fun _ => run;
     subprocess_popen := fun _ => popen;
     time_time := fun n => 1700000000 + Z.of_nat n |}.

Definition quiet_run : RunOutcome := Completed (Exited 0) EmptyString EmptyString.
Definition quiet_popen : StreamOutcome := Streamed [] (Exited 0) EmptyString.

(** A host on which every outside action succeeds. *)
Definition calm (machine : string) : World :=
  world machine ∅ quiet_run quiet_popen (Parsed EMPTY_REGISTRY) None.

(** The manager that [__init__] builds on a host, around a registry. *)
Definition manager_on (w : World) (doc : JSONDoc) : ModelManager :=
  {| models_dir := "/app/models";
     logs_dir := "/app/logs";
     registry_path := os_path_join w "/app/models" "registry.json";
     registry := doc;
     system := fst (_get_system_info w);
     arch := snd (_get_system_info w) |}.

Definition machine_on (w : World) (doc : JSONDoc) : Machine :=
  {| manager := manager_on w doc; ticks := 0; events := [] |}.

Definition installed (name quant : string) : InstalledModel :=
  {| im_model_id := "org/" +:+ name;
     im_model_name := name;
     im_quant_type := quant;
     im_path := "/app/models/" +:+ name;
     im_gguf_path := "/app/models/" +:+ name +:+ "/ggml-model-" +:+ quant +:+ ".gguf";
     im_description := "an installed model" |}.

Definition params : GenerationParams :=
  {| n_predict := 128; threads := 4; ctx_size := 2048;
     temperature := {| str_float := "0.8" |}; conversation := false |}.

(** A registry with one installed model. *)
Definition one_model : JSONDoc := RegistryDoc {["m" := installed "m" "i2_s"]}.

(** A host with the compiled binary, which exits with status 1 after
    writing to its standard error. *)
Definition failing_binary : World :=
  world "x86_64" {["BITNET_MOCK_MODE" := "0"]}
    (Completed (Exited 1) EmptyString "boom") quiet_popen
    (Parsed EMPTY_REGISTRY) None.

(** The same failure of the mock script, on a host in mock mode. *)
Definition failing_mock : World :=
  world "x86_64" ∅ (Completed (Exited 1) EmptyString "boom") quiet_popen
    (Parsed EMPTY_REGISTRY) None.




(** A host whose inference process writes four chunks and exits with 0. *)
Definition chatty : World :=
  world "x86_64" ∅ quiet_run
    (Streamed ["Hi" +:+ PyStr.LF; "Assistant: "; "Hel"; "lo"] (Exited 0)
       EmptyString)
    (Parsed EMPTY_REGISTRY) None.

(** A registry in which the first model of the catalog is installed. *)
Definition bitnet_installed : JSONDoc :=
  RegistryDoc {["BitNet-b1.58-2B-4T" := installed "BitNet-b1.58-2B-4T" "i2_s"]}.

(** A host on which no directory can be deleted. *)
Definition stuck_rmtree : World :=
  world "x86_64" ∅ quiet_run quiet_popen (Parsed EMPTY_REGISTRY)
    (Some (OSError "[Errno 13] Permission denied: '/app/models/m'")).


(** A host whose inference process writes the given text and exits with 0. *)
Definition printing (text : string) : World :=
  world "x86_64" ∅ (Completed (Exited 0) text EmptyString) quiet_popen
    (Parsed EMPTY_REGISTRY) None.

(** A host whose inference process writes the given lines, then fails
    with the given text on its standard error. *)
Definition stream_failing (lines : list string) (err : string) : World :=
  world "x86_64" ∅ quiet_run (Streamed lines (Exited 1) err)
    (Parsed EMPTY_REGISTRY) None.

(** A host whose inference process writes the given lines and exits with 0. *)
Definition streaming (lines : list string) : World :=
  world "x86_64" ∅ quiet_run (Streamed lines (Exited 0) EmptyString)
    (Parsed EMPTY_REGISTRY) None.

(** A host on which the operating system refuses to run the binary. *)
Definition unrunnable : World :=
  world "x86_64" ∅ (SpawnRaises (OSError "[Errno 8] Exec format error"))
    quiet_popen (Parsed EMPTY_REGISTRY) None.

End Demo.

(** * Properties *)

(** ** Strings *)

Lemma str_app_nil_l (s : string) : EmptyString +:+ s = s.
Proof. reflexivity. Qed.

Lemma str_app_cons (c : ascii) (s t : string) :
  String c s +:+ t = String c (s +:+ t).
Proof. reflexivity. Qed.

(** Push the constructors of a text out of its concatenations. *)
Ltac norm_app := rewrite ?str_app_cons, ?str_app_nil_l in *.

Section StringFacts.

Implicit Types (s t u : string) (c : ascii).

Lemma str_app_nil_r s : s +:+ EmptyString = s.
Proof. induction s as [|c s IH]; norm_app; [done | by rewrite IH]. Qed.

Lemma str_app_assoc s t u : (s +:+ t) +:+ u = s +:+ t +:+ u.
Proof. induction s as [|c s IH]; norm_app; [done | by rewrite IH]. Qed.

Lemma str_length_app s t :
  String.length (s +:+ t) = (String.length s + String.length t)%nat.
Proof. induction s as [|c s IH]; norm_app; simpl; [done | by rewrite IH]. Qed.

Lemma str_app_inv_head s t u : s +:+ t = s +:+ u -> t = u.
Proof. induction s as [|c s IH]; norm_app; [done | intros [= H]; auto]. Qed.

(** Two ways of cutting the same text: the shorter front is a prefix
    of the longer one. *)
Lemma str_app_eq_app s t s' t' :
  s +:+ t = s' +:+ t' -> (String.length s <= String.length s')%nat ->
  exists e, s' = s +:+ e /\ t = e +:+ t'.
Proof.
  revert s'. induction s as [|c s IH]; intros s' Heq Hlen.
  - exists s'. by norm_app.
  - destruct s' as [|c' s']; simpl in Hlen; [lia |].
    norm_app. injection Heq as -> Heq.
    destruct (IH s' Heq ltac:(lia)) as (e & -> & ->). by exists e.
Qed.

Lemma strip_prefix_Some p s r :
  PyStr.strip_prefix p s = Some r <-> s = p +:+ r.
Proof.
  revert s. induction p as [|a p IH]; intros s; simpl; norm_app.
  - split; [by intros [= ->] | by intros ->].
  - destruct s as [|b s]; [by split |].
    destruct (Ascii.eqb_spec a b) as [->|Hne].
    + rewrite IH. split; [by intros -> | by intros [= ->]].
    + split; [done | intros [= ? ?]; by subst].
Qed.

Lemma strip_prefix_app p r : PyStr.strip_prefix p (p +:+ r) = Some r.
Proof. by apply strip_prefix_Some. Qed.

(** [partition] cuts at an occurrence, and at the leftmost one. *)
Lemma partition_Some sep s b a :
  PyStr.partition sep s = Some (b, a) ->
  s = b +:+ sep +:+ a /\
  forall b' a', s = b' +:+ sep +:+ a' ->
                (String.length b <= String.length b')%nat.
Proof.
  revert b. induction s as [|c s IH]; intros b; simpl.
  - destruct (PyStr.strip_prefix sep EmptyString) as [r|] eqn:Hp; [|done].
    intros [= <- <-]. apply strip_prefix_Some in Hp.
    split; [done | intros; simpl; lia].
  - destruct (PyStr.strip_prefix sep (String c s)) as [r|] eqn:Hp.
    + intros [= <- <-]. apply strip_prefix_Some in Hp.
      split; [done | intros; simpl; lia].
    + destruct (PyStr.partition sep s) as [[b0 a0]|] eqn:Hs; [|done].
      intros [= <- <-]. destruct (IH b0 eq_refl) as [-> Hmin].
      split; [done |]. intros b' a' Heq.
      destruct b' as [|c' b']; norm_app.
      * rewrite Heq, strip_prefix_app in Hp. done.
      * injection Heq as _ Heq. specialize (Hmin _ _ Heq). simpl. lia.
Qed.

Lemma partition_None sep s :
  PyStr.partition sep s = None -> forall b a, s <> b +:+ sep +:+ a.
Proof.
  induction s as [|c s IH]; simpl.
  - destruct (PyStr.strip_prefix sep EmptyString) eqn:Hp; [done |].
    intros _ [|c b] a Heq; norm_app; [| done].
    rewrite Heq, strip_prefix_app in Hp. done.
  - destruct (PyStr.strip_prefix sep (String c s)) eqn:Hp; [done |].
    destruct (PyStr.partition sep s) as [[b0 a0]|] eqn:Hs; [done |].
    intros _ [|c' b] a Heq; norm_app.
    + rewrite Heq, strip_prefix_app in Hp. done.
    + injection Heq as _ Heq. by apply (IH eq_refl b a).
Qed.

Lemma contains_true sep s :
  PyStr.contains sep s = true <-> exists b a, s = b +:+ sep +:+ a.
Proof.
  unfold PyStr.contains. destruct (PyStr.partition sep s) as [[b a]|] eqn:Hp.
  - split; [intros _ | done]. exists b, a. by apply partition_Some.
  - split; [done |]. intros (b & a & Heq). by apply partition_None in Heq.
Qed.

Lemma contains_false sep s :
  PyStr.contains sep s = false <-> forall b a, s <> b +:+ sep +:+ a.
Proof.
  destruct (PyStr.contains sep s) eqn:Hc.
  - apply contains_true in Hc as (b & a & ->). split; [done |].
    intros H. by destruct (H b a).
  - split; [| done]. intros _ b a Heq.
    assert (PyStr.contains sep s = true) by (apply contains_true; eauto).
    congruence.
Qed.

(** Once a text has the marker, every extension of it has it. *)
Lemma contains_app sep s t :
  PyStr.contains sep s = true -> PyStr.contains sep (s +:+ t) = true.
Proof.
  rewrite !contains_true. intros (b & a & ->). exists b, (a +:+ t).
  by rewrite !str_app_assoc.
Qed.

Lemma slice_from_app s t : PyStr.slice_from (String.length s) (s +:+ t) = t.
Proof. induction s as [|c s IH]; norm_app; simpl; [by destruct t | done]. Qed.

Lemma has_char_app_cons c s t : PyStr.has_char c (s +:+ String c t) = true.
Proof.
  induction s as [|d s IH]; norm_app; simpl.
  - by rewrite Ascii.eqb_refl.
  - rewrite IH. apply orb_true_r.
Qed.

Lemma split_rounds_last_Some rounds sep s :
  is_Some (last (PyStr.split_rounds rounds sep s)).
Proof.
  revert s. induction rounds as [|r IH]; intros s; simpl.
  - destruct (PyStr.partition sep s) as [[b a]|]; simpl; eauto.
  - destruct (PyStr.partition sep s) as [[b a]|]; simpl; eauto.
    rewrite last_cons. destruct (IH a) as [x ->]. eauto.
Qed.

Lemma split_rounds_none rounds sep s :
  PyStr.contains sep s = false -> PyStr.split_rounds rounds sep s = [s].
Proof.
  unfold PyStr.contains. intros H.
  destruct rounds; simpl; by destruct (PyStr.partition sep s) as [[b a]|].
Qed.

(** A separator whose first character does not come back later in it
    cannot overlap itself, so the last piece of a split is what
    follows the last occurrence. *)
Lemma split_rounds_last c r post :
  PyStr.has_char c r = false ->
  PyStr.contains (String c r) post = false ->
  forall rounds pre,
    (String.length pre < rounds)%nat ->
    last (PyStr.split_rounds rounds (String c r)
            (pre +:+ String c r +:+ post)) = Some post.
Proof.
  intros Hc Hpost. induction rounds as [|n IH]; intros pre Hlen; [lia |].
  simpl PyStr.split_rounds.
  destruct (PyStr.partition (String c r) (pre +:+ String c r +:+ post))
    as [[b a]|] eqn:Hp.
  2:{ by apply partition_None with (b := pre) (a := post) in Hp. }
  apply partition_Some in Hp as [Heq Hmin].
  specialize (Hmin pre post eq_refl).
  symmetry in Heq. apply str_app_eq_app in Heq as (e & -> & Ha); [| done].
  rewrite last_cons.
  destruct e as [|c' e]; norm_app.
  - injection Ha as Ha. apply str_app_inv_head in Ha as ->.
    by rewrite split_rounds_none.
  - injection Ha as <- Ha.
    destruct (Nat.le_gt_cases (String.length r) (String.length e)) as [Hle|Hgt].
    + apply str_app_eq_app in Ha as (e' & -> & ->); [| done].
      rewrite str_length_app in Hlen. simpl in Hlen. rewrite str_length_app in Hlen.
      rewrite IH by lia. done.
    + symmetry in Ha. apply str_app_eq_app in Ha as (r' & -> & Hr'); [| lia].
      rewrite str_length_app in Hgt.
      destruct r' as [|d r']; simpl in Hgt; [lia |].
      norm_app. injection Hr' as -> _.
      by rewrite has_char_app_cons in Hc.
Qed.

End StringFacts.

(** ** Running a computation *)

(** Unfold the plumbing of [Py] down to pairs of a result and a machine. *)
Ltac py_unfold :=
  unfold new_events, outcome, final, mbind, mret, Py_bind, Py_ret, bind, ret,
    raise, try_except, attempt, emit, get_self, put_registry, subscript,
    first_item, last_item, manager_log, engine_log in *.

Ltac py_simpl := py_unfold; simpl in *.

(** ** A logic of results

    Rules that carry a postcondition backwards through the combinators
    of [Py], one per combinator. *)

Section Logic.
Context {A B : Type}.
Implicit Types (m : Machine) (e : PyExc).

Lemma sat_ret (a : A) m (Q : result A -> Machine -> Prop) : Q (Ok a) m -> satisfies (mret a) m Q.
Proof. done. Qed.

Lemma sat_raise e m (Q : result A -> Machine -> Prop) :
  Q (Raise e) m -> satisfies (raise e) m Q.
Proof. done. Qed.

Lemma sat_bind (c : Py A) (k : A -> Py B) m (Q : result B -> Machine -> Prop) :
  satisfies c m (fun r m1 =>
    match r with
    | Ok a => satisfies (k a) m1 Q
    | Raise e => Q (Raise e) m1
    end) ->
  satisfies (c ≫= k) m Q.
Proof.
  unfold satisfies, outcome, final, mbind, Py_bind, bind.
  by destruct (c m) as [[a|e] m1].
Qed.

Lemma sat_try (c : Py A) (catches : PyExc -> bool) (h : PyExc -> Py A) m
    (Q : result A -> Machine -> Prop) :
  satisfies c m (fun r m1 =>
    match r with
    | Ok a => Q (Ok a) m1
    | Raise e => if catches e then satisfies (h e) m1 Q else Q (Raise e) m1
    end) ->
  satisfies (try_except c catches h) m Q.
Proof.
  unfold satisfies, outcome, final, try_except.
  destruct (c m) as [[a|e] m1]; simpl; [done |].
  by destruct (catches e).
Qed.

End Logic.

Lemma sat_emit ev m Q : Q (Ok tt) (add_event ev m) -> satisfies (emit ev) m Q.
Proof. done. Qed.

Lemma sat_attempt o ev m Q :
  match o with
  | Some e => Q (Raise e) m
  | None => Q (Ok tt) (add_event ev m)
  end ->
  satisfies (attempt o ev) m Q.
Proof. by destruct o. Qed.

Lemma sat_get_self m Q : Q (Ok (manager m)) m -> satisfies get_self m Q.
Proof. done. Qed.

Lemma sat_put_registry doc m Q :
  Q (Ok tt) (with_registry doc m) -> satisfies (put_registry doc) m Q.
Proof. done. Qed.

(** One rule, chosen by the head of the computation. *)
Ltac sat_step :=
  lazymatch goal with
  | |- satisfies (mbind _ _) _ _ => apply sat_bind
  | |- satisfies (mret _) _ _ => apply sat_ret
  | |- satisfies (ret _) _ _ => apply sat_ret
  | |- satisfies (raise _) _ _ => apply sat_raise
  | |- satisfies (emit _) _ _ => apply sat_emit
  | |- satisfies (attempt ?o _) _ _ => apply sat_attempt; destruct o eqn:?
  | |- satisfies (try_except _ _ _) _ _ => apply sat_try
  | |- satisfies get_self _ _ => apply sat_get_self
  | |- satisfies (put_registry _) _ _ => apply sat_put_registry
  | |- satisfies (manager_log _ _) _ _ => unfold manager_log
  | |- satisfies (engine_log _ _) _ _ => unfold engine_log
  | |- satisfies (subscript _ _) _ _ => unfold subscript
  | |- satisfies (first_item _) _ _ => unfold first_item
  | |- satisfies (last_item _) _ _ => unfold last_item
  | |- satisfies registry_models _ _ => unfold registry_models
  | |- satisfies (_save_registry _) _ _ => unfold _save_registry
  | |- satisfies (match ?x with _ => _ end) _ _ => destruct x eqn:?
  | |- if ?b then _ else _ => destruct b eqn:?
  end;
  cbn beta iota delta [add_event with_registry set_registry manager ticks events
    registry models_dir logs_dir registry_path system arch is_Exception].

Ltac sat_run := repeat sat_step.

(** ** The chat prompt *)

Lemma fold_add_message (messages : list Message) (prompt : string) :
  fold_left add_message messages prompt
  = prompt +:+ PyStr.join (map (add_message EmptyString) messages).
Proof.
  revert prompt. induction messages as [|message rest IH]; intros prompt; simpl.
  - by rewrite str_app_nil_r.
  - rewrite IH. rewrite <- str_app_assoc. f_equal.
    unfold add_message.
    repeat (case_match; norm_app; try done).
    by rewrite str_app_nil_r.
Qed.

Lemma add_message_recognized (message : Message) :
  Spec.recognized message = true ->
  add_message EmptyString message = Spec.format_message message.
Proof.
  unfold Spec.recognized, add_message, Spec.format_message.
  destruct (String.eqb_spec (role message) "system") as [->|_]; [done |].
  destruct (String.eqb_spec (role message) "user") as [->|_]; [done |].
  destruct (String.eqb_spec (role message) "assistant") as [->|_]; done.
Qed.

Lemma add_message_unknown (message : Message) (prompt : string) :
  Spec.recognized message = false -> add_message prompt message = prompt.
Proof.
  unfold Spec.recognized, add_message.
  destruct (String.eqb (role message) "system"); [done |].
  destruct (String.eqb (role message) "user"); [done |].
  destruct (String.eqb (role message) "assistant"); done.
Qed.

Lemma fold_add_message_filter (messages : list Message) (prompt : string) :
  fold_left add_message messages prompt
  = fold_left add_message (List.filter Spec.recognized messages) prompt.
Proof.
  revert prompt. induction messages as [|message rest IH]; intros prompt; simpl.
  - done.
  - destruct (Spec.recognized message) eqn:Hr; simpl.
    + apply IH.
    + rewrite add_message_unknown by done. apply IH.
Qed.

(** C9: for messages whose roles are system, user or assistant, the
    prompt that [chat_completion] builds is the concatenation, in order,
    of the capitalized role label, a colon and a space, the content and
    two line feeds per message, followed by the trailing assistant cue. *)
Theorem chat_prompt_is_formatPrompt (messages : list Message) :
  forallb Spec.recognized messages = true ->
  chat_prompt messages = Spec.formatPrompt messages.
Proof.
  intros Hall. unfold chat_prompt, Spec.formatPrompt.
  rewrite fold_add_message, str_app_nil_l. f_equal. f_equal.
  induction messages as [|message rest IH]; simpl in *; [done |].
  apply andb_prop in Hall as [Hm Hrest].
  by rewrite add_message_recognized, IH.
Qed.

(** The example of C9: a system message and a user message. *)
Lemma chat_prompt_be_terse :
  forallb Spec.recognized
    [ {| role := "system"; content := "Be terse" |};
      {| role := "user"; content := "Hi" |} ] = true
  /\ chat_prompt
       [ {| role := "system"; content := "Be terse" |};
         {| role := "user"; content := "Hi" |} ]
     = "System: Be terse" +:+ PyStr.LF +:+ PyStr.LF +:+ "User: Hi"
         +:+ PyStr.LF +:+ PyStr.LF +:+ "Assistant: ".
Proof.
  split; [reflexivity |].
  rewrite (chat_prompt_is_formatPrompt
             [ {| role := "system"; content := "Be terse" |};
               {| role := "user"; content := "Hi" |} ] eq_refl).
  reflexivity.
Defined.

(** C10: a message whose role is not system, user or assistant adds
    nothing to the prompt and raises nothing: the prompt, and so the
    whole of [chat_completion] and of [stream_chat_completion], is that
    of the messages with a recognized role. *)
Theorem unknown_roles_are_skipped (w : World) (model_name : string)
    (messages : list Message) (n_predict threads ctx_size : Z)
    (temperature : PyFloat) :
  chat_prompt messages = chat_prompt (List.filter Spec.recognized messages)
  /\ chat_completion w model_name messages n_predict threads ctx_size temperature
     = chat_completion w model_name (List.filter Spec.recognized messages)
         n_predict threads ctx_size temperature
  /\ stream_chat_completion w model_name messages n_predict threads ctx_size
       temperature
     = stream_chat_completion w model_name (List.filter Spec.recognized messages)
         n_predict threads ctx_size temperature.
Proof.
  assert (chat_prompt messages
          = chat_prompt (List.filter Spec.recognized messages)) as H.
  { unfold chat_prompt. by rewrite fold_add_message_filter. }
  unfold chat_completion, stream_chat_completion. by rewrite H.
Qed.

(** ** Loading the registry *)




(** ** Errors of the inference binary *)

(** C1 at a failing input.  The model is installed, the process exits
    with status 1 and its standard error is the text boom.  The
    [RuntimeError] that [run_inference] raises carries the text of the
    [CalledProcessError], which names the command and the status; the
    standard error goes to the log only.  The streaming sibling puts the
    standard error into its message. *)
Theorem run_inference_error_omits_stderr :
  outcome (run_inference Demo.failing_binary "m" "Hi" Demo.params)
          (Demo.machine_on Demo.failing_binary Demo.one_model)
  = Raise (RuntimeError
      "Error running inference: Command '['build/bin/llama-cli', '-m', '/app/models/m/ggml-model-i2_s.gguf', '-n', '128', '-t', '4', '-p', 'Hi', '-ngl', '0', '-c', '2048', '--temp', '0.8', '-b', '1']' returned non-zero exit status 1.")
  /\ PyStr.contains "boom"
       "Error running inference: Command '['build/bin/llama-cli', '-m', '/app/models/m/ggml-model-i2_s.gguf', '-n', '128', '-t', '4', '-p', 'Hi', '-ngl', '0', '-c', '2048', '--temp', '0.8', '-b', '1']' returned non-zero exit status 1."
     = false
  /\ last (events (final (run_inference Demo.failing_binary "m" "Hi" Demo.params)
                         (Demo.machine_on Demo.failing_binary Demo.one_model)))
     = Some (EvLog "inference" "ERROR" "stderr: boom")
  /\ outcome (run_inference Demo.failing_mock "m" "Hi" Demo.params)
             (Demo.machine_on Demo.failing_mock Demo.one_model)
     = Raise (RuntimeError
         ("Error running inference with mock: Command '/usr/bin/python3 /app/mock_llama_cli.py -m /app/models/m/ggml-model-i2_s.gguf -n 128 -t 4 -p "
            +:+ PyStr.DQUOTE +:+ "Hi" +:+ PyStr.DQUOTE
            +:+ " -ngl 0 -c 2048 --temp 0.8 -b 1' returned non-zero exit status 1.")).
Proof. repeat split; vm_compute; reflexivity. Qed.

(** Whatever the process wrote to its outputs, [str] of the
    [CalledProcessError] is the same. *)
Lemma str_exc_ignores_output (st : ExitStatus) (cmd : Cmd)
    (out err out' err' : string) :
  str_exc (CalledProcessError st cmd out err)
  = str_exc (CalledProcessError st cmd out' err').
Proof. by destruct st as [code|signum [name|]]. Qed.

(** ** Downloading on an unknown architecture *)

(** C3 at a failing input.  On a host whose machine string is not in
    the table of quantization kinds, downloading a model of the catalog
    raises [KeyError], with and without a quantization kind. *)
Theorem download_model_raises_on_unknown_arch :
  outcome (download_model (Demo.calm "riscv64") "microsoft/BitNet-b1.58-2B-4T" None)
          (Demo.machine_on (Demo.calm "riscv64") EMPTY_REGISTRY)
  = Raise (KeyError "riscv64")
  /\ outcome (download_model (Demo.calm "riscv64") "microsoft/BitNet-b1.58-2B-4T"
                (Some "i2_s"))
             (Demo.machine_on (Demo.calm "riscv64") EMPTY_REGISTRY)
     = Raise (KeyError "riscv64").
Proof. split; vm_compute; reflexivity. Qed.

(** ** Removing a model *)

(** C5: on a registry of the documented shape, [remove_model] returns
    false, raises nothing and leaves the manager as it was when the name
    is not installed, and also when deleting the directory raises; when
    the deletion succeeds the record is deleted from the registry, and
    the call returns true with that registry written to the registry
    file if the file can be written. *)
Theorem remove_model_outcomes (w : World) (model_name : string)
    (models : gmap string InstalledModel) (m : Machine) :
  registry (manager m) = RegistryDoc models ->
  (models !! model_name = None ->
     outcome (remove_model w model_name) m = Ok false
     /\ manager (final (remove_model w model_name) m) = manager m
     /\ new_events (remove_model w model_name) m
        = [EvLog "model_manager" "ERROR"
             ("Model " +:+ model_name +:+ " is not installed")])
  /\ (forall record e,
        models !! model_name = Some record ->
        rmtree w (im_path record) = Some e ->
        outcome (remove_model w model_name) m = Ok false
        /\ manager (final (remove_model w model_name) m) = manager m
        /\ new_events (remove_model w model_name) m
           = [EvLog "model_manager" "ERROR"
                ("Error removing model directory: " +:+ str_exc e)])
  /\ (forall record,
        models !! model_name = Some record ->
        rmtree w (im_path record) = None ->
        registry (manager (final (remove_model w model_name) m))
        = RegistryDoc (delete model_name models)
        /\ (write_file w (registry_path (manager m)) = None ->
            outcome (remove_model w model_name) m = Ok true
            /\ new_events (remove_model w model_name) m
               = [EvRmtree (im_path record);
                  EvWrite (registry_path (manager m))
                    (RegistryDump (RegistryDoc (delete model_name models)));
                  EvLog "model_manager" "INFO"
                    ("Model " +:+ model_name +:+ " removed successfully")])).
Proof.
  intros Hreg. destruct m as [[md ld rp reg sy ar] t evs]. simpl in Hreg. subst reg.
  split; [| split].
  - intros Hnone. unfold remove_model, registry_models. py_simpl.
    rewrite Hnone. simpl. rewrite drop_app_length. done.
  - intros record e Hsome Hrm. unfold remove_model, registry_models. py_simpl.
    rewrite Hsome. simpl. rewrite Hrm. simpl. rewrite drop_app_length. done.
  - intros record Hsome Hrm. unfold remove_model, registry_models, _save_registry.
    py_simpl. rewrite Hsome. simpl. rewrite Hrm. simpl.
    destruct (write_file w rp) as [e|] eqn:Hw; simpl.
    + split; [done | by intros].
    + split; [done |]. intros _. rewrite <- !(assoc_L (++)).
      rewrite drop_app_length. done.
Qed.

(** C5 on three runs: a name that is not installed, a directory that
    cannot be deleted, and a removal that goes through. *)
Lemma remove_model_outcomes_witness :
  (outcome (remove_model (Demo.calm "x86_64") "ghost")
           (Demo.machine_on (Demo.calm "x86_64") Demo.one_model) = Ok false
   /\ manager (final (remove_model (Demo.calm "x86_64") "ghost")
                     (Demo.machine_on (Demo.calm "x86_64") Demo.one_model))
      = Demo.manager_on (Demo.calm "x86_64") Demo.one_model)
  /\ (outcome (remove_model Demo.stuck_rmtree "m")
              (Demo.machine_on Demo.stuck_rmtree Demo.one_model) = Ok false
      /\ manager (final (remove_model Demo.stuck_rmtree "m")
                        (Demo.machine_on Demo.stuck_rmtree Demo.one_model))
         = Demo.manager_on Demo.stuck_rmtree Demo.one_model)
  /\ (outcome (remove_model (Demo.calm "x86_64") "m")
              (Demo.machine_on (Demo.calm "x86_64") Demo.one_model) = Ok true
      /\ registry (manager (final (remove_model (Demo.calm "x86_64") "m")
                       (Demo.machine_on (Demo.calm "x86_64") Demo.one_model)))
         = RegistryDoc (delete "m" {["m" := Demo.installed "m" "i2_s"]})).
Proof.
  split; [| split].
  - destruct (remove_model_outcomes (Demo.calm "x86_64") "ghost"
                {["m" := Demo.installed "m" "i2_s"]}
                (Demo.machine_on (Demo.calm "x86_64") Demo.one_model) eq_refl)
      as (Habsent & _ & _).
    destruct (Habsent eq_refl) as (Hout & Hmgr & _). exact (conj Hout Hmgr).
  - destruct (remove_model_outcomes Demo.stuck_rmtree "m"
                {["m" := Demo.installed "m" "i2_s"]}
                (Demo.machine_on Demo.stuck_rmtree Demo.one_model) eq_refl)
      as (_ & Hstuck & _).
    destruct (Hstuck (Demo.installed "m" "i2_s") _ eq_refl eq_refl)
      as (Hout & Hmgr & _).
    exact (conj Hout Hmgr).
  - destruct (remove_model_outcomes (Demo.calm "x86_64") "m"
                {["m" := Demo.installed "m" "i2_s"]}
                (Demo.machine_on (Demo.calm "x86_64") Demo.one_model) eq_refl)
      as (_ & _ & Hgone).
    destruct (Hgone (Demo.installed "m" "i2_s") eq_refl eq_refl) as (Hreg & Hsaved).
    destruct (Hsaved eq_refl) as (Hout & _). exact (conj Hout Hreg).
Defined.

(** ** Downloading, then removing *)

(** A download that returns true has put a record under the canonical
    name of the model, over whatever was there. *)
Lemma download_model_success (w : World) (model_id : string)
    (quant_type : option string) (entry : config.CatalogEntry)
    (models : gmap string InstalledModel) (m : Machine) :
  registry (manager m) = RegistryDoc models ->
  config.SUPPORTED_MODELS !! model_id = Some entry ->
  outcome (download_model w model_id quant_type) m = Ok true ->
  exists record,
    registry (manager (final (download_model w model_id quant_type) m))
    = RegistryDoc (<[config.model_name entry := record]> models).
Proof.
  intros Hreg Hentry.
  change (satisfies (download_model w model_id quant_type) m
            (fun r m' => r = Ok true ->
               exists record, registry (manager m')
                 = RegistryDoc (<[config.model_name entry := record]> models))).
  unfold download_model, _run_command, run_checked. rewrite Hentry.
  sat_run.
  all: try done.
  all: intros _; simplify_eq; cbn; eauto.
Qed.

(** A removal that returns true has deleted the record of the name. *)
Lemma remove_model_success (w : World) (model_name : string)
    (models : gmap string InstalledModel) (m : Machine) :
  registry (manager m) = RegistryDoc models ->
  outcome (remove_model w model_name) m = Ok true ->
  registry (manager (final (remove_model w model_name) m))
  = RegistryDoc (delete model_name models).
Proof.
  intros Hreg.
  change (satisfies (remove_model w model_name) m
            (fun r m' => r = Ok true ->
               registry (manager m') = RegistryDoc (delete model_name models))).
  unfold remove_model.
  sat_run.
  all: try done.
  all: intros _; simplify_eq; cbn; eauto.
Qed.

(** C6, as stated, fails: when the model is already installed, the
    download overwrites its record and the removal deletes it, so the
    installed models end up empty although one was listed before. *)
Lemma download_then_remove_loses_installed_model :
  outcome list_installed_models
          (Demo.machine_on (Demo.calm "x86_64") Demo.bitnet_installed)
  = Ok {["BitNet-b1.58-2B-4T" := Demo.installed "BitNet-b1.58-2B-4T" "i2_s"]}
  /\ outcome (download_model (Demo.calm "x86_64")
                "microsoft/BitNet-b1.58-2B-4T" (Some "i2_s"))
             (Demo.machine_on (Demo.calm "x86_64") Demo.bitnet_installed)
     = Ok true
  /\ outcome (remove_model (Demo.calm "x86_64") "BitNet-b1.58-2B-4T")
             (final (download_model (Demo.calm "x86_64")
                       "microsoft/BitNet-b1.58-2B-4T" (Some "i2_s"))
                    (Demo.machine_on (Demo.calm "x86_64") Demo.bitnet_installed))
     = Ok true
  /\ outcome list_installed_models
             (final (remove_model (Demo.calm "x86_64") "BitNet-b1.58-2B-4T")
                (final (download_model (Demo.calm "x86_64")
                          "microsoft/BitNet-b1.58-2B-4T" (Some "i2_s"))
                       (Demo.machine_on (Demo.calm "x86_64")
                          Demo.bitnet_installed)))
     = Ok ∅.
Proof. repeat split; vm_compute; reflexivity. Qed.

(** C6, amended: when the canonical name of the model is not installed
    before the download, the installed models listed after a successful
    download of the model and a successful removal of that name are
    those listed before the download. *)
Theorem download_then_remove_restores_registry (w1 w2 : World)
    (model_id : string) (quant_type : option string)
    (entry : config.CatalogEntry) (models : gmap string InstalledModel)
    (m : Machine) :
  registry (manager m) = RegistryDoc models ->
  config.SUPPORTED_MODELS !! model_id = Some entry ->
  models !! config.model_name entry = None ->
  outcome (download_model w1 model_id quant_type) m = Ok true ->
  outcome (remove_model w2 (config.model_name entry))
          (final (download_model w1 model_id quant_type) m) = Ok true ->
  outcome list_installed_models
          (final (remove_model w2 (config.model_name entry))
                 (final (download_model w1 model_id quant_type) m))
  = outcome list_installed_models m.
Proof.
  intros Hreg Hentry Hfresh Hdown Hrem.
  destruct (download_model_success _ _ _ _ _ _ Hreg Hentry Hdown) as [record Hreg1].
  pose proof (remove_model_success _ _ _ _ Hreg1 Hrem) as Hreg2.
  unfold list_installed_models, registry_models. py_simpl.
  rewrite Hreg2, Hreg. simpl.
  by rewrite delete_insert_eq, delete_id.
Qed.

(** The amended C6 on a host where every step succeeds, from a registry
    that holds another model. *)
Lemma download_then_remove_restores_registry_witness :
  outcome list_installed_models
          (final (remove_model (Demo.calm "x86_64") "BitNet-b1.58-2B-4T")
             (final (download_model (Demo.calm "x86_64")
                       "microsoft/BitNet-b1.58-2B-4T" None)
                    (Demo.machine_on (Demo.calm "x86_64") Demo.one_model)))
  = outcome list_installed_models
            (Demo.machine_on (Demo.calm "x86_64") Demo.one_model).
Proof.
  exact (download_then_remove_restores_registry
           (Demo.calm "x86_64") (Demo.calm "x86_64")
           "microsoft/BitNet-b1.58-2B-4T" None
           {| config.model_name := "BitNet-b1.58-2B-4T";
              config.description :=
                "Official BitNet 2B parameter model (4T tokens)" |}
           {["m" := Demo.installed "m" "i2_s"]}
           (Demo.machine_on (Demo.calm "x86_64") Demo.one_model)
           eq_refl eq_refl eq_refl eq_refl eq_refl).
Defined.

(** ** The commands that inference starts *)

Section Emits.

Context (P : Event -> Prop).

Lemma emits_ret {A} (a : A) : emits_only P (mret a).
Proof. intros m. exists []. by rewrite app_nil_r. Qed.

Lemma emits_raise {A} (e : PyExc) : emits_only P (@raise A e).
Proof. intros m. exists []. by rewrite app_nil_r. Qed.

Lemma emits_bind {A B} (c : Py A) (k : A -> Py B) :
  emits_only P c -> (forall a, emits_only P (k a)) -> emits_only P (c ≫= k).
Proof.
  intros Hc Hk m. destruct (Hc m) as (n1 & E1 & F1).
  unfold final, mbind, Py_bind, bind in *.
  destruct (c m) as [[a|e] m1]; simpl in *.
  - destruct (Hk a m1) as (n2 & E2 & F2). exists (n1 ++ n2).
    unfold final in E2. rewrite E2, E1, (assoc_L (++)).
    split; [done | by apply Forall_app].
  - by exists n1.
Qed.

Lemma emits_try {A} (c : Py A) (catches : PyExc -> bool) (h : PyExc -> Py A) :
  emits_only P c -> (forall e, emits_only P (h e)) ->
  emits_only P (try_except c catches h).
Proof.
  intros Hc Hh m. destruct (Hc m) as (n1 & E1 & F1).
  unfold final, try_except in *.
  destruct (c m) as [[a|e] m1]; simpl in *; [by exists n1 |].
  destruct (catches e); [| by exists n1].
  destruct (Hh e m1) as (n2 & E2 & F2). exists (n1 ++ n2).
  unfold final in E2. rewrite E2, E1, (assoc_L (++)).
  split; [done | by apply Forall_app].
Qed.

Lemma emits_emit (ev : Event) : P ev -> emits_only P (emit ev).
Proof. intros Hev m. exists [ev]. split; [done | by constructor]. Qed.

Lemma emits_attempt (o : option PyExc) (ev : Event) :
  P ev -> emits_only P (attempt o ev).
Proof.
  intros Hev. destruct o; [apply emits_raise | by apply emits_emit].
Qed.

Lemma emits_get_model_path (model_name : string) :
  emits_only P (get_model_path model_name).
Proof.
  intros m. exists []. rewrite app_nil_r. split; [| done].
  unfold final, get_model_path, registry_models, get_self, mbind, Py_bind,
    bind, mret, Py_ret, ret, raise.
  simpl. destruct (registry (manager m)) as [models|e]; simpl; [| done].
  by destruct (models !! model_name).
Qed.

Lemma emits_read_stdout {B} (callback : string -> B -> Py B)
    (lines : list string) :
  (forall line b, emits_only P (callback line b)) ->
  forall b m, exists new,
    events (snd (read_stdout callback lines b m)) = events m ++ new
    /\ Forall P new.
Proof.
  intros Hcb. induction lines as [|line rest IH]; intros b m; simpl.
  - exists []. by rewrite app_nil_r.
  - destruct (Hcb line b m) as (n1 & E1 & F1). unfold final in E1.
    destruct (callback line b m) as [[b'|e] m1]; simpl in *; [| by exists n1].
    destruct (IH b' m1) as (n2 & E2 & F2). exists (n1 ++ n2).
    rewrite E2, E1, (assoc_L (++)). split; [done | by apply Forall_app].
Qed.

End Emits.

Lemma emits_get_llama_cli_path (w : World) (depth : nat) :
  emits_only spawn_ok (_get_llama_cli_path w depth).
Proof.
  induction depth as [|depth IH]; simpl.
  - apply emits_raise.
  - repeat first
      [ done
      | apply emits_bind; [| intros ?]
      | apply emits_ret
      | apply emits_attempt
      | apply emits_emit
      | match goal with |- emits_only _ (if ?b then _ else _) => destruct b end ].
Qed.

Lemma ngl_zero_real_command (llama_cli model_path prompt : string)
    (p : GenerationParams) :
  Spec.ngl_zero (Argv (real_command llama_cli model_path prompt p)).
Proof.
  exists [ llama_cli; "-m"; model_path; "-n"; PyStr.str_int (n_predict p);
           "-t"; PyStr.str_int (threads p); "-p"; prompt ].
  unfold real_command.
  destruct (conversation p); eexists; simpl; reflexivity.
Qed.

Lemma ngl_zero_mock_command_str (llama_cli model_path prompt : string)
    (p : GenerationParams) :
  Spec.ngl_zero (ShellLine (mock_command_str llama_cli model_path prompt p)).
Proof.
  simpl. apply contains_true.
  exists (llama_cli +:+ " -m " +:+ model_path
            +:+ " -n " +:+ PyStr.str_int (n_predict p)
            +:+ " -t " +:+ PyStr.str_int (threads p)
            +:+ " -p " +:+ PyStr.DQUOTE +:+ prompt +:+ PyStr.DQUOTE).
  unfold mock_command_str.
  destruct (conversation p); eexists; rewrite ?str_app_assoc;
    repeat (f_equal; []); norm_app; reflexivity.
Qed.

Ltac emits_step :=
  first
    [ done
    | apply emits_ret
    | apply emits_raise
    | apply emits_emit
    | apply emits_attempt
    | apply emits_get_model_path
    | apply emits_get_llama_cli_path
    | apply emits_bind; [| intros ?]
    | apply emits_try; [| intros ?]
    | match goal with
      | |- emits_only _ (if ?b then _ else _) => destruct b
      | |- emits_only _ (match ?x with _ => _ end) => destruct x
      end ].

Lemma emits_run_checked (w : World) (cmd : Cmd) :
  Spec.ngl_zero cmd -> emits_only spawn_ok (run_checked w cmd).
Proof. intros Hcmd. unfold run_checked. repeat emits_step. Qed.

Lemma emits_popen_and_read {B} (w : World) (cmd : Cmd)
    (callback : string -> B -> Py B) (b0 : B) (label : string) :
  Spec.ngl_zero cmd ->
  (forall line b, emits_only spawn_ok (callback line b)) ->
  emits_only spawn_ok (popen_and_read w cmd callback b0 label).
Proof.
  intros Hcmd Hcb. unfold popen_and_read, engine_log.
  apply emits_bind; [by apply emits_emit | intros _].
  destruct (subprocess_popen w cmd) as [e|lines st err]; [apply emits_raise |].
  apply emits_bind.
  - intros m. destruct (emits_read_stdout spawn_ok callback lines Hcb b0 m)
      as (new & E & F).
    exists new. unfold final. destruct (read_stdout callback lines b0 m). done.
  - intros b. repeat emits_step.
Qed.

(** C4: every command that [run_inference] and [stream_inference] start
    has the GPU offload switched off, in conversation mode and out of
    it: the argument vector has the flag -ngl followed by 0, and the
    shell line of the mock branch has them as text. *)
Theorem inference_commands_force_ngl_zero (w : World)
    (model_name prompt : string) (p : GenerationParams) :
  emits_only spawn_ok (run_inference w model_name prompt p)
  /\ forall (B : Type) (callback : string -> B -> Py B) (b0 : B),
       (forall line b, emits_only spawn_ok (callback line b)) ->
       emits_only spawn_ok (stream_inference w model_name prompt callback b0 p).
Proof.
  split.
  - unfold run_inference, engine_log.
    apply emits_bind; [apply emits_get_model_path | intros [model_path|]];
      [| apply emits_raise].
    apply emits_bind; [apply emits_get_llama_cli_path | intros llama_cli].
    destruct (PyStr.endswith llama_cli "mock_llama_cli.py").
    + apply emits_try; [| intros e; repeat emits_step].
      apply emits_bind; [| intros; apply emits_ret].
      apply emits_run_checked, ngl_zero_mock_command_str.
    + apply emits_try; [| intros e; repeat emits_step].
      apply emits_bind; [| intros; apply emits_ret].
      apply emits_run_checked, ngl_zero_real_command.
  - intros B callback b0 Hcb. unfold stream_inference, engine_log.
    apply emits_bind; [apply emits_get_model_path | intros [model_path|]];
      [| apply emits_raise].
    apply emits_bind; [apply emits_get_llama_cli_path | intros llama_cli].
    destruct (PyStr.endswith llama_cli "mock_llama_cli.py").
    + apply emits_try; [| intros e; repeat emits_step].
      by apply emits_popen_and_read; [apply ngl_zero_mock_command_str |].
    + apply emits_try; [| intros e; repeat emits_step].
      by apply emits_popen_and_read; [apply ngl_zero_real_command |].
Qed.

(** C4 on two runs: one of the compiled binary, in which the argument
    vector is the only command started, and one that streams from the
    mock script into a callback that keeps nothing. *)
Lemma inference_commands_force_ngl_zero_witness :
  (exists new,
     events (final (run_inference Demo.failing_binary "m" "Hi" Demo.params)
                   (Demo.machine_on Demo.failing_binary Demo.one_model))
     = events (Demo.machine_on Demo.failing_binary Demo.one_model) ++ new
     /\ Forall spawn_ok new)
  /\ (exists new,
        events (final (stream_inference Demo.chatty "m" "Hi"
                         (fun (line : string) (b : unit) => mret b) tt Demo.params)
                      (Demo.machine_on Demo.chatty Demo.one_model))
        = events (Demo.machine_on Demo.chatty Demo.one_model) ++ new
        /\ Forall spawn_ok new).
Proof.
  split.
  - exact (proj1 (inference_commands_force_ngl_zero Demo.failing_binary
                    "m" "Hi" Demo.params)
             (Demo.machine_on Demo.failing_binary Demo.one_model)).
  - exact (proj2 (inference_commands_force_ngl_zero Demo.chatty
                    "m" "Hi" Demo.params)
             unit (fun line b => mret b) tt
             (fun line b => emits_ret spawn_ok b)
             (Demo.machine_on Demo.chatty Demo.one_model)).
Defined.


(** ** The reply of a one-shot completion *)

Section LastOccurrence.

(** A separator that starts with [c] and has no other [c]. *)
Context (c : ascii) (r : string) (Hr : PyStr.has_char c r = false).

Lemma no_overlap (e post a : string) :
  String c r +:+ post = e +:+ String c r +:+ a ->
  e = EmptyString \/ exists e', e = String c r +:+ e' /\ post = e' +:+ String c r +:+ a.
Proof.
  intros Heq. destruct e as [|c' e]; [by left | right].
  norm_app. injection Heq as <- Heq.
  destruct (Nat.le_gt_cases (String.length r) (String.length e)) as [Hle|Hgt].
  - apply str_app_eq_app in Heq as (e' & -> & ->); [| done].
    exists e'. by norm_app.
  - symmetry in Heq. apply str_app_eq_app in Heq as (r' & -> & Hr'); [| lia].
    rewrite str_length_app in Hgt.
    destruct r' as [|d r']; simpl in Hgt; [lia |].
    norm_app. injection Hr' as -> _.
    by rewrite has_char_app_cons in Hr.
Qed.

(** The occurrence before a text without the separator is the last. *)
Lemma last_occurrence_intro (pre post : string) :
  PyStr.contains (String c r) post = false ->
  Spec.last_occurrence (String c r) (pre +:+ String c r +:+ post)
    (String.length pre).
Proof.
  intros Hpost. split; [by exists pre, post |].
  intros j (b & a & Heq & <-).
  destruct (Nat.le_gt_cases (String.length b) (String.length pre)) as [|Hgt];
    [done | exfalso].
  apply str_app_eq_app in Heq as (e & -> & Heq); [| lia].
  apply no_overlap in Heq as [-> | (e' & -> & ->)].
  - rewrite str_app_nil_r in Hgt. lia.
  - by destruct (proj1 (contains_false _ _) Hpost e' a).
Qed.

(** What follows the last occurrence has no occurrence. *)
Lemma last_occurrence_elim (s : string) (i : nat) :
  Spec.last_occurrence (String c r) s i ->
  exists pre post,
    s = pre +:+ String c r +:+ post /\ String.length pre = i
    /\ Spec.text_after (String c r) s i = post
    /\ PyStr.contains (String c r) post = false.
Proof.
  intros [(pre & post & -> & <-) Hlast]. exists pre, post.
  split; [done | split; [done | split]].
  - unfold Spec.text_after.
    by rewrite <- str_app_assoc, <- str_length_app, slice_from_app.
  - destruct (PyStr.contains (String c r) post) eqn:Hc; [exfalso | done].
    apply contains_true in Hc as (b & a & ->).
    assert (Spec.occurs_at (String c r)
              (pre +:+ String c r +:+ b +:+ String c r +:+ a)
              (String.length (pre +:+ String c r +:+ b))) as Hocc.
    { exists (pre +:+ String c r +:+ b), a. by rewrite !str_app_assoc. }
    apply Hlast in Hocc. rewrite !str_length_app in Hocc. simpl in Hocc. lia.
Qed.

End LastOccurrence.

(** C8: when the raw output has the assistant cue, the completion that
    the extraction step returns has, as the content of its first choice,
    the text after the last occurrence of the cue with the white space
    around it stripped; the rest of the envelope is fixed by the model
    name and the clock. *)
Theorem parse_completion_takes_text_after_last_cue (w : World)
    (model_name raw : string) (i : nat) (m : Machine) :
  Spec.last_occurrence "Assistant: " raw i ->
  outcome (parse_completion w model_name raw) m
  = Ok {| id := "chat-" +:+ model_name;
          object := "chat.completion";
          created := time_time w (ticks m);
          model := model_name;
          choices :=
            [ {| index := 0;
                 message :=
                   {| role := "assistant";
                      content :=
                        PyStr.strip (Spec.text_after "Assistant: " raw i) |};
                 finish_reason := "stop" |} ] |}.
Proof.
  intros Hlast.
  apply (last_occurrence_elim "A" "ssistant: ") in Hlast
    as (pre & post & -> & <- & -> & Hpost).
  unfold parse_completion, split, import_time. py_unfold. cbn [fst snd].
  rewrite (split_rounds_last "A" "ssistant: " post eq_refl Hpost).
  - done.
  - unfold PyStr.len. rewrite !str_length_app. simpl. lia.
Qed.

(** The example of C8: an echoed prompt, the cue, the reply. *)
Lemma parse_completion_hello_there :
  completion_content
    (outcome (parse_completion (Demo.calm "x86_64") "m"
                ("Hi" +:+ PyStr.LF +:+ "Assistant: Hello there"))
             (Demo.machine_on (Demo.calm "x86_64") EMPTY_REGISTRY))
  = Some "Hello there".
Proof.
  rewrite (parse_completion_takes_text_after_last_cue (Demo.calm "x86_64") "m"
             ("Hi" +:+ PyStr.LF +:+ "Assistant: Hello there") 3
             (Demo.machine_on (Demo.calm "x86_64") EMPTY_REGISTRY)
             (last_occurrence_intro "A" "ssistant: " eq_refl
                ("Hi" +:+ PyStr.LF) "Hello there" eq_refl)).
  reflexivity.
Defined.

(** Without the cue, the content is the whole output, stripped. *)
Lemma parse_completion_without_cue (w : World) (model_name raw : string)
    (m : Machine) :
  PyStr.contains "Assistant: " raw = false ->
  completion_content (outcome (parse_completion w model_name raw) m)
  = Some (PyStr.strip raw).
Proof.
  intros Hraw. unfold parse_completion, split, import_time. py_unfold.
  cbn [fst snd]. by rewrite split_rounds_none.
Qed.

(** ** The envelopes of a streamed completion *)

Lemma run_bind {A B} (c : Py A) (k : A -> Py B) (m : Machine) :
  (c ≫= k) m
  = match c m with
    | (Ok a, m1) => k a m1
    | (Raise e, m1) => (Raise e, m1)
    end.
Proof. reflexivity. Qed.

Lemma envelopes_app (l k : list Event) :
  envelopes (l ++ k) = envelopes l ++ envelopes k.
Proof.
  induction l as [|ev l IH]; simpl; [done |]. destruct ev; simpl; by rewrite ?IH.
Qed.

Lemma envelopes_map (l : list ChatChunk) : envelopes (map EvEnvelope l) = l.
Proof. induction l as [|x l IH]; simpl; [done | by rewrite IH]. Qed.

Section StreamCallback.

Context (w : World) (model_name : string).

(** Before the buffer has the cue, a chunk only goes into the buffer. *)
Lemma stream_callback_quiet (chunk buffer : string) (m : Machine) :
  PyStr.contains "Assistant: " (buffer +:+ chunk) = false ->
  stream_callback w model_name chunk buffer m = (Ok (buffer +:+ chunk), m).
Proof. intros H. unfold stream_callback. cbv zeta. by rewrite H. Qed.

(** Once the buffer has the cue, the chunk is delivered as it came. *)
Lemma stream_callback_emits (chunk buffer : string) (m : Machine) :
  PyStr.contains "Assistant: " (buffer +:+ chunk) = true ->
  stream_callback w model_name chunk buffer m
  = (Ok (buffer +:+ chunk),
     {| manager := manager m;
        ticks := S (ticks m);
        events := events m ++
          [EvEnvelope (delta_envelope model_name (time_time w (ticks m)) chunk)] |}).
Proof.
  intros H. unfold stream_callback. cbv zeta. rewrite H.
  unfold split, import_time. py_unfold.
  destruct (split_rounds_last_Some (PyStr.len (buffer +:+ chunk)) "Assistant: "
              (buffer +:+ chunk)) as [piece Hpiece].
  cbn [fst snd]. by rewrite Hpiece.
Qed.

(** The chunks that come while the buffer has no cue leave no trace. *)
Lemma read_stdout_quiet (pre rest : list string) (buffer : string)
    (m : Machine) :
  PyStr.contains "Assistant: " (buffer +:+ PyStr.join pre) = false ->
  read_stdout (stream_callback w model_name) (pre ++ rest) buffer m
  = read_stdout (stream_callback w model_name) rest
      (buffer +:+ PyStr.join pre) m.
Proof.
  revert buffer. induction pre as [|chunk pre IH]; intros buffer H; simpl.
  - by rewrite str_app_nil_r.
  - simpl in H. rewrite <- str_app_assoc in H.
    rewrite stream_callback_quiet.
    + rewrite IH by done. by rewrite str_app_assoc.
    + destruct (PyStr.contains "Assistant: " (buffer +:+ chunk)) eqn:Hc; [| done].
      apply contains_app with (t := PyStr.join pre) in Hc. congruence.
Qed.

(** From the chunk that completes the cue on, every chunk is
    delivered, each with its own clock reading. *)
Lemma read_stdout_emits (chunks : list string) (buffer : string)
    (m : Machine) :
  (forall chunk rest, chunks = chunk :: rest ->
     PyStr.contains "Assistant: " (buffer +:+ chunk) = true) ->
  read_stdout (stream_callback w model_name) chunks buffer m
  = (buffer +:+ PyStr.join chunks,
     {| manager := manager m;
        ticks := ticks m + length chunks;
        events := events m ++
          map EvEnvelope (delta_envelopes w model_name (ticks m) chunks) |}).
Proof.
  revert buffer m. induction chunks as [|chunk rest IH]; intros buffer m H; simpl.
  - rewrite str_app_nil_r, Nat.add_0_r, app_nil_r. by destruct m.
  - pose proof (H chunk rest eq_refl) as Hc.
    rewrite stream_callback_emits by done.
    rewrite IH.
    + cbn [manager ticks events]. rewrite str_app_assoc, <- (assoc_L (++)).
      by rewrite Nat.add_succ_r.
    + intros chunk' rest' _. by apply contains_app.
Qed.

End StreamCallback.

(** Looking up the path of a model changes nothing. *)
Lemma get_model_path_run (model_name : string) (m : Machine) :
  get_model_path model_name m = (outcome (get_model_path model_name) m, m).
Proof.
  unfold outcome, get_model_path, registry_models. py_unfold.
  destruct (registry (manager m)) as [models|e]; simpl; [| done].
  by destruct (models !! model_name).
Qed.

(** Resolving the binary delivers no envelope and reads no clock. *)
Lemma get_llama_cli_path_run (w : World) (depth : nat) (m : Machine) :
  exists evs,
    envelopes evs = []
    /\ _get_llama_cli_path w depth m
       = (outcome (_get_llama_cli_path w depth) m,
          {| manager := manager m; ticks := ticks m; events := events m ++ evs |}).
Proof.
  revert m. induction depth as [|depth IH]; intros m; simpl.
  - exists []. rewrite app_nil_r. by destruct m.
  - destruct (String.eqb _ "1").
    + destruct (negb (path_exists w _)).
      * destruct (write_file w _) as [e|].
        -- exists []. unfold outcome. py_unfold. simpl.
           rewrite app_nil_r. by destruct m.
        -- eexists [_]. unfold outcome. py_unfold. simpl.
           split; last reflexivity. done.
      * exists []. rewrite app_nil_r. by destruct m.
    + destruct (negb (path_exists w _)).
      * unfold outcome. rewrite !run_bind. unfold engine_log, emit.
        match goal with |- context [_get_llama_cli_path w depth ?m1] =>
          destruct (IH m1) as (evs & Henv & Hrun) end.
        rewrite Hrun. cbn [fst manager ticks events].
        eexists (_ :: evs).
        split; last (rewrite <- (assoc_L (++)); reflexivity).
        exact Henv.
      * exists []. rewrite app_nil_r. by destruct m.
Qed.

Section StreamedCompletion.

Context (w : World) (model_name : string).
Context (pre : list string) (chunk : string) (post : list string).
Context (Hquiet : PyStr.contains "Assistant: " (PyStr.join pre) = false).
Context (Hcue : PyStr.contains "Assistant: " (PyStr.join pre +:+ chunk) = true).



End StreamedCompletion.




(** * More properties of the model manager *)

Lemma extends_refl (P : Event -> Prop) (l : list Event) : extends_by P l l.
Proof. exists []. by rewrite app_nil_r. Qed.

Lemma extends_snoc (P : Event -> Prop) (l k : list Event) (ev : Event) :
  extends_by P l k -> P ev -> extends_by P l (k ++ [ev]).
Proof.
  intros (new & -> & Hnew) Hev. exists (new ++ [ev]).
  split; [by rewrite (assoc_L (++)) | apply Forall_app; by repeat constructor].
Qed.

(** Close a goal about the events of a machine reached by adding events
    one at a time. *)
Ltac extends_chain :=
  repeat (apply extends_snoc; [| exact I]); apply extends_refl.

(** [sat_step], after the tests on known values are decided. *)
Ltac sat_eval :=
  first
    [ lazymatch goal with
      | |- satisfies (match String.append (String _ _) _ with _ => _ end) _ _ =>
          rewrite str_app_cons
      end
    | sat_step ];
  cbn beta iota delta [negb].

(** What a download of a model of the catalog comes to: either the
    manager is as before, the call does not return true and the registry
    file is not written; or the quantization kind is valid, the record
    is stored, and then either the registry file is written and the call
    returns true, or writing it raises. *)
Lemma download_model_cases (w : World) (model_id : string)
    (quant_type : option string) (entry : config.CatalogEntry)
    (models : gmap string InstalledModel) (m : Machine) :
  registry (manager m) = RegistryDoc models ->
  config.SUPPORTED_MODELS !! model_id = Some entry ->
  satisfies (download_model w model_id quant_type) m (fun r m' =>
    (manager m' = manager m /\ r <> Ok true
     /\ extends_by no_registry_dump (events m) (events m'))
    \/ (exists kinds qt,
          config.SUPPORTED_QUANT_TYPES !! arch (manager m) = Some kinds
          /\ chosen_quant quant_type kinds = Some qt
          /\ in_list qt kinds = true
          /\ manager m'
             = set_registry
                 (RegistryDoc
                    (<[config.model_name entry :=
                         installed_record w (manager m) model_id entry qt]> models))
                 (manager m)
          /\ ((r = Ok true
               /\ EvWrite (registry_path (manager m))
                    (RegistryDump
                       (RegistryDoc
                          (<[config.model_name entry :=
                               installed_record w (manager m) model_id entry qt]>
                             models)))
                  ∈ events m')
              \/ exists e, r = Raise e
                   /\ write_file w (registry_path (manager m)) = Some e))).
Proof.
  intros Hreg Hentry. destruct m as [[md ld rp reg sy ar] t evs].
  simpl in Hreg. subst reg.
  unfold download_model, _run_command, run_checked. rewrite Hentry.
  repeat sat_eval.
  all: try (left; split; [reflexivity | split; [discriminate | extends_chain]]).
  all: right; eexists _, _.
  all: split; [reflexivity |]; split; [reflexivity |].
  all: split; [by apply negb_false_iff |].
  all: split; [reflexivity |].
  all: first
         [ right; eexists; split; [reflexivity | done]
         | left; split; [reflexivity |];
           apply elem_of_app; left; apply elem_of_app; right; constructor ].
Qed.

(** What a removal comes to: either the manager is as before, the call
    returns false and the registry file is not written; or the directory
    of the installed model is deleted, the record is deleted, and the
    call returns true unless writing the registry file raises. *)
Lemma remove_model_cases (w : World) (model_name : string)
    (models : gmap string InstalledModel) (m : Machine) :
  registry (manager m) = RegistryDoc models ->
  satisfies (remove_model w model_name) m (fun r m' =>
    (manager m' = manager m /\ r = Ok false
     /\ extends_by no_registry_dump (events m) (events m'))
    \/ (exists record,
          models !! model_name = Some record
          /\ rmtree w (im_path record) = None
          /\ manager m'
             = set_registry (RegistryDoc (delete model_name models)) (manager m)
          /\ (r = Ok true \/ exists e, r = Raise e))).
Proof.
  intros Hreg. destruct m as [[md ld rp reg sy ar] t evs].
  simpl in Hreg. subst reg.
  unfold remove_model.
  repeat sat_eval.
  all: try (left; split; [reflexivity | split; [reflexivity | extends_chain]]).
  all: right; eexists; repeat (split; [done |]); eauto.
Qed.

Lemma get_model_info_run (model_name : string) (m : Machine) :
  get_model_info model_name m = (outcome (get_model_info model_name) m, m).
Proof.
  unfold outcome, get_model_info, registry_models. py_unfold.
  by destruct (registry (manager m)) as [models|e].
Qed.

Lemma get_model_info_registry (model_name : string)
    (models : gmap string InstalledModel) (m : Machine) :
  registry (manager m) = RegistryDoc models ->
  outcome (get_model_info model_name) m = Ok (models !! model_name).
Proof.
  intros Hreg. unfold outcome, get_model_info, registry_models. py_unfold.
  by rewrite Hreg.
Qed.

Lemma get_model_path_registry (model_name : string)
    (models : gmap string InstalledModel) (m : Machine) :
  registry (manager m) = RegistryDoc models ->
  outcome (get_model_path model_name) m
  = Ok (im_gguf_path <$> models !! model_name).
Proof.
  intros Hreg. unfold outcome, get_model_path, registry_models. py_unfold.
  rewrite Hreg. simpl. by destruct (models !! model_name).
Qed.

(** X1: after a download that returns true, the information and the
    path of the model under its canonical name are those of the record
    just built: the quantization kind is the one asked for, or the first
    kind of the architecture when none was given, it is one of the kinds
    of the architecture, and the weight file is inside the directory of
    the model. *)
Theorem download_model_installs_record (w : World) (model_id : string)
    (quant_type : option string) (entry : config.CatalogEntry)
    (models : gmap string InstalledModel) (m : Machine) :
  registry (manager m) = RegistryDoc models ->
  config.SUPPORTED_MODELS !! model_id = Some entry ->
  outcome (download_model w model_id quant_type) m = Ok true ->
  exists kinds qt,
    config.SUPPORTED_QUANT_TYPES !! arch (manager m) = Some kinds
    /\ chosen_quant quant_type kinds = Some qt
    /\ in_list qt kinds = true
    /\ outcome (get_model_info (config.model_name entry))
               (final (download_model w model_id quant_type) m)
       = Ok (Some (installed_record w (manager m) model_id entry qt))
    /\ outcome (get_model_path (config.model_name entry))
               (final (download_model w model_id quant_type) m)
       = Ok (Some (os_path_join w
                     (os_path_join w (models_dir (manager m))
                        (config.model_name entry))
                     ("ggml-model-" +:+ qt +:+ ".gguf"))).
Proof.
  intros Hreg Hentry Hok.
  destruct (download_model_cases w model_id quant_type entry models m Hreg Hentry)
    as [(_ & Hno & _) | (kinds & qt & Hk & Hq & Hin & Hmgr & _)]; [done |].
  exists kinds, qt. repeat (split; [done |]).
  assert (registry (manager (final (download_model w model_id quant_type) m))
          = RegistryDoc
              (<[config.model_name entry :=
                   installed_record w (manager m) model_id entry qt]> models))
    as Hreg' by (by rewrite Hmgr).
  rewrite (get_model_info_registry _ _ _ Hreg'),
    (get_model_path_registry _ _ _ Hreg'), lookup_insert_eq.
  done.
Qed.

(** X1 on a host that reports the machine AMD64, with no kind given. *)
Lemma download_model_installs_record_witness :
  exists kinds qt,
    config.SUPPORTED_QUANT_TYPES !! "x86_64" = Some kinds
    /\ chosen_quant None kinds = Some qt
    /\ in_list qt kinds = true
    /\ outcome (get_model_info "BitNet-b1.58-2B-4T")
               (final (download_model (Demo.calm "AMD64")
                         "microsoft/BitNet-b1.58-2B-4T" None)
                      (Demo.machine_on (Demo.calm "AMD64") Demo.one_model))
       = Ok (Some (installed_record (Demo.calm "AMD64")
                     (Demo.manager_on (Demo.calm "AMD64") Demo.one_model)
                     "microsoft/BitNet-b1.58-2B-4T"
                     {| config.model_name := "BitNet-b1.58-2B-4T";
                        config.description :=
                          "Official BitNet 2B parameter model (4T tokens)" |}
                     qt))
    /\ outcome (get_model_path "BitNet-b1.58-2B-4T")
               (final (download_model (Demo.calm "AMD64")
                         "microsoft/BitNet-b1.58-2B-4T" None)
                      (Demo.machine_on (Demo.calm "AMD64") Demo.one_model))
       = Ok (Some ("/app/models/BitNet-b1.58-2B-4T/ggml-model-" +:+ qt +:+ ".gguf")).
Proof.
  exact (download_model_installs_record (Demo.calm "AMD64")
           "microsoft/BitNet-b1.58-2B-4T" None
           {| config.model_name := "BitNet-b1.58-2B-4T";
              config.description :=
                "Official BitNet 2B parameter model (4T tokens)" |}
           {["m" := Demo.installed "m" "i2_s"]}
           (Demo.machine_on (Demo.calm "AMD64") Demo.one_model)
           eq_refl eq_refl eq_refl).
Defined.

(** X2: a download that returns true has written the registry file, and
    what it wrote is the registry that the manager holds at the return. *)
Theorem download_model_persists_registry (w : World) (model_id : string)
    (quant_type : option string) (models : gmap string InstalledModel)
    (m : Machine) :
  registry (manager m) = RegistryDoc models ->
  outcome (download_model w model_id quant_type) m = Ok true ->
  EvWrite (registry_path (manager m))
    (RegistryDump
       (registry (manager (final (download_model w model_id quant_type) m))))
  ∈ events (final (download_model w model_id quant_type) m).
Proof.
  intros Hreg Hok.
  destruct (config.SUPPORTED_MODELS !! model_id) as [entry|] eqn:Hentry.
  - destruct (download_model_cases w model_id quant_type entry models m Hreg Hentry)
      as [(_ & Hno & _) | (kinds & qt & _ & _ & _ & Hmgr & Hend)]; [done |].
    destruct Hend as [[_ Hin] | (e & He & _)]; [| congruence].
    by rewrite Hmgr.
  - unfold outcome, download_model in Hok. py_unfold.
    by rewrite Hentry in Hok.
Qed.

Lemma download_model_persists_registry_witness :
  EvWrite "/app/models/registry.json"
    (RegistryDump
       (registry (manager (final (download_model (Demo.calm "x86_64")
                                    "microsoft/BitNet-b1.58-2B-4T" (Some "tl2"))
                                 (Demo.machine_on (Demo.calm "x86_64")
                                    Demo.one_model)))))
  ∈ events (final (download_model (Demo.calm "x86_64")
                     "microsoft/BitNet-b1.58-2B-4T" (Some "tl2"))
                  (Demo.machine_on (Demo.calm "x86_64") Demo.one_model)).
Proof.
  exact (download_model_persists_registry (Demo.calm "x86_64")
           "microsoft/BitNet-b1.58-2B-4T" (Some "tl2")
           {["m" := Demo.installed "m" "i2_s"]}
           (Demo.machine_on (Demo.calm "x86_64") Demo.one_model)
           eq_refl eq_refl).
Defined.

(** X3: a download that returns false has left the manager, and so the
    registry in memory, as it was, and has not written the registry
    file. *)
Theorem download_model_false_changes_nothing (w : World) (model_id : string)
    (quant_type : option string) (models : gmap string InstalledModel)
    (m : Machine) :
  registry (manager m) = RegistryDoc models ->
  outcome (download_model w model_id quant_type) m = Ok false ->
  manager (final (download_model w model_id quant_type) m) = manager m
  /\ extends_by no_registry_dump (events m)
       (events (final (download_model w model_id quant_type) m)).
Proof.
  intros Hreg Hfalse.
  destruct (config.SUPPORTED_MODELS !! model_id) as [entry|] eqn:Hentry.
  - destruct (download_model_cases w model_id quant_type entry models m Hreg Hentry)
      as [(Hmgr & _ & Hext) | (kinds & qt & _ & _ & _ & _ & Hend)]; [done |].
    destruct Hend as [[Htrue _] | (e & He & _)]; congruence.
  - unfold final, download_model. py_unfold. rewrite Hentry. simpl.
    split; [done |]. extends_chain.
Qed.

Lemma download_model_false_changes_nothing_witness :
  manager (final (download_model Demo.failing_mock
                    "microsoft/BitNet-b1.58-2B-4T" None)
                 (Demo.machine_on Demo.failing_mock Demo.one_model))
  = manager (Demo.machine_on Demo.failing_mock Demo.one_model)
  /\ extends_by no_registry_dump
       (events (Demo.machine_on Demo.failing_mock Demo.one_model))
       (events (final (download_model Demo.failing_mock
                         "microsoft/BitNet-b1.58-2B-4T" None)
                      (Demo.machine_on Demo.failing_mock Demo.one_model))).
Proof.
  exact (download_model_false_changes_nothing Demo.failing_mock
           "microsoft/BitNet-b1.58-2B-4T" None
           {["m" := Demo.installed "m" "i2_s"]}
           (Demo.machine_on Demo.failing_mock Demo.one_model)
           eq_refl eq_refl).
Defined.

(** X4: a download of a model that is not in the catalog, or with a
    quantization kind that the architecture does not support, returns
    false after one line in the log: no directory is made, no process is
    started, no file is written and the manager is as before. *)
Theorem download_model_rejects_invalid_request (w : World) (model_id : string)
    (quant_type : option string) (m : Machine) :
  (config.SUPPORTED_MODELS !! model_id = None
   \/ exists kinds q,
        config.SUPPORTED_QUANT_TYPES !! arch (manager m) = Some kinds
        /\ quant_type = Some q /\ in_list q kinds = false) ->
  exists msg,
    download_model w model_id quant_type m
    = (Ok false, add_event (EvLog "model_manager" "ERROR" msg) m).
Proof.
  intros Hbad. unfold download_model. py_unfold.
  destruct (config.SUPPORTED_MODELS !! model_id) as [entry|] eqn:Hentry.
  - destruct Hbad as [? | (kinds & q & Hk & -> & Hin)]; [done |].
    cbn [manager arch]. rewrite Hk. simpl. rewrite Hin. simpl. eauto.
  - simpl. eauto.
Qed.

Lemma download_model_rejects_invalid_request_witness :
  (exists msg,
     download_model (Demo.calm "x86_64") "nobody/nothing" None
       (Demo.machine_on (Demo.calm "x86_64") Demo.one_model)
     = (Ok false,
        add_event (EvLog "model_manager" "ERROR" msg)
          (Demo.machine_on (Demo.calm "x86_64") Demo.one_model)))
  /\ (exists msg,
        download_model (Demo.calm "x86_64") "microsoft/BitNet-b1.58-2B-4T"
          (Some "tl1") (Demo.machine_on (Demo.calm "x86_64") Demo.one_model)
        = (Ok false,
           add_event (EvLog "model_manager" "ERROR" msg)
             (Demo.machine_on (Demo.calm "x86_64") Demo.one_model))).
Proof.
  split.
  - exact (download_model_rejects_invalid_request (Demo.calm "x86_64")
             "nobody/nothing" None
             (Demo.machine_on (Demo.calm "x86_64") Demo.one_model)
             (or_introl eq_refl)).
  - exact (download_model_rejects_invalid_request (Demo.calm "x86_64")
             "microsoft/BitNet-b1.58-2B-4T" (Some "tl1")
             (Demo.machine_on (Demo.calm "x86_64") Demo.one_model)
             (or_intror (ex_intro _ ["i2_s"; "tl2"]
                (ex_intro _ "tl1" (conj eq_refl (conj eq_refl eq_refl)))))).
Defined.

Lemma returncode_zero (st : ExitStatus) : returncode st = 0 -> st = Exited 0.
Proof. destruct st as [code|signum name]; simpl; [| done]. intros H. f_equal. lia. Qed.

(** [sat_eval], deciding a test by a hypothesis that tells its value
    where there is one. *)
Ltac sat_known :=
  lazymatch goal with
  | |- satisfies (match ?x with _ => _ end) _ _ =>
      match goal with H : ?y = _ |- _ => unify x y; change x with y; rewrite H end
  | |- satisfies (attempt ?x _) _ _ =>
      match goal with H : ?y = _ |- _ => unify x y; change x with y; rewrite H end
  end;
  cbn beta iota delta [negb].

Ltac sat_go := repeat first [sat_known | sat_eval].

(** X5: when the request is valid and the directory of the model can be
    made, a fetch that fails in any way, be it that the log file cannot
    be opened, that the tool cannot be started, or that it does not exit
    with 0, makes the download return false: nothing is raised, the
    manager is as before and the registry file is not written. *)
Theorem download_model_fetch_failure (w : World) (model_id : string)
    (quant_type : option string) (entry : config.CatalogEntry)
    (kinds : list string) (qt : string) (m : Machine) :
  config.SUPPORTED_MODELS !! model_id = Some entry ->
  config.SUPPORTED_QUANT_TYPES !! arch (manager m) = Some kinds ->
  chosen_quant quant_type kinds = Some qt ->
  in_list qt kinds = true ->
  mkdir w (os_path_join w (models_dir (manager m)) (config.model_name entry))
  = None ->
  (write_file w
     (os_path_join w (logs_dir (manager m))
        (("download_model_" +:+ config.model_name entry) +:+ ".log")) <> None
   \/ forall out err,
        subprocess_run w
          (fetch_command model_id
             (os_path_join w (models_dir (manager m)) (config.model_name entry)))
        <> Completed (Exited 0) out err) ->
  outcome (download_model w model_id quant_type) m = Ok false
  /\ manager (final (download_model w model_id quant_type) m) = manager m
  /\ extends_by no_registry_dump (events m)
       (events (final (download_model w model_id quant_type) m)).
Proof.
  intros Hentry Hk Hq Hin Hmkdir Hfail.
  change (satisfies (download_model w model_id quant_type) m (fun r m' =>
            r = Ok false /\ manager m' = manager m
            /\ extends_by no_registry_dump (events m) (events m'))).
  destruct m as [[md ld rp reg sy ar] t evs].
  cbn [manager arch models_dir logs_dir events] in *.
  assert (kinds <> [] /\ (quant_type = Some qt \/ quant_type = None /\ head kinds = Some qt))
    as [Hne Hqt].
  { destruct quant_type; simpl in Hq; simplify_eq;
      [split; [by destruct kinds | by left] |].
    split; [by destruct kinds | by right]. }
  unfold download_model, _run_command, run_checked. rewrite Hentry.
  unfold fetch_command in Hfail.
  destruct Hqt as [-> | [-> Hhead]]; [| destruct kinds as [|q kinds]; [done |];
    simpl in Hhead; injection Hhead as ->].
  all: destruct Hfail as [Hlog | Hrun];
    [ destruct (write_file w (os_path_join w ld
        (("download_model_" +:+ config.model_name entry) +:+ ".log")))
        as [e|] eqn:Hw; [clear Hlog | done]
    | destruct (subprocess_run w
        (Argv ["huggingface-cli"; "download"; model_id; "--local-dir";
               os_path_join w md (config.model_name entry)]))
        as [e|st out err] eqn:Hs;
      [| destruct (returncode st =? 0) eqn:Hrc;
         [apply Z.eqb_eq, returncode_zero in Hrc; subst st;
          by destruct (Hrun out err) |]] ].
  all: sat_go.
  all: split; [reflexivity | split; [reflexivity | extends_chain]].
Qed.

Lemma download_model_fetch_failure_witness :
  outcome (download_model Demo.failing_mock "microsoft/BitNet-b1.58-2B-4T" None)
          (Demo.machine_on Demo.failing_mock Demo.one_model) = Ok false
  /\ manager (final (download_model Demo.failing_mock
                       "microsoft/BitNet-b1.58-2B-4T" None)
                    (Demo.machine_on Demo.failing_mock Demo.one_model))
     = manager (Demo.machine_on Demo.failing_mock Demo.one_model)
  /\ extends_by no_registry_dump
       (events (Demo.machine_on Demo.failing_mock Demo.one_model))
       (events (final (download_model Demo.failing_mock
                         "microsoft/BitNet-b1.58-2B-4T" None)
                      (Demo.machine_on Demo.failing_mock Demo.one_model))).
Proof.
  refine (download_model_fetch_failure Demo.failing_mock
            "microsoft/BitNet-b1.58-2B-4T" None
            {| config.model_name := "BitNet-b1.58-2B-4T";
               config.description :=
                 "Official BitNet 2B parameter model (4T tokens)" |}
            ["i2_s"; "tl2"] "i2_s"
            (Demo.machine_on Demo.failing_mock Demo.one_model)
            eq_refl eq_refl eq_refl eq_refl eq_refl (or_intror _)).
  intros out err H. discriminate H.
Defined.

(** The registry after a download, whatever its result: the one before,
    or that one with a record of the model under its canonical name. *)
Lemma download_model_registry (w : World) (model_id : string)
    (quant_type : option string) (models : gmap string InstalledModel)
    (m : Machine) :
  registry (manager m) = RegistryDoc models ->
  registry (manager (final (download_model w model_id quant_type) m))
  = RegistryDoc models
  \/ exists entry qt,
       config.SUPPORTED_MODELS !! model_id = Some entry
       /\ registry (manager (final (download_model w model_id quant_type) m))
          = RegistryDoc
              (<[config.model_name entry :=
                   installed_record w (manager m) model_id entry qt]> models).
Proof.
  intros Hreg.
  destruct (config.SUPPORTED_MODELS !! model_id) as [entry|] eqn:Hentry.
  - destruct (download_model_cases w model_id quant_type entry models m Hreg Hentry)
      as [(Hmgr & _) | (kinds & qt & _ & _ & _ & Hmgr & _)].
    + left. by rewrite Hmgr.
    + right. exists entry, qt. split; [done |]. by rewrite Hmgr.
  - left. unfold final, download_model. py_unfold. by rewrite Hentry.
Qed.

(** The registry after a removal, whatever its result: the one before,
    or that one without the name. *)
Lemma remove_model_registry (w : World) (model_name : string)
    (models : gmap string InstalledModel) (m : Machine) :
  registry (manager m) = RegistryDoc models ->
  registry (manager (final (remove_model w model_name) m)) = RegistryDoc models
  \/ registry (manager (final (remove_model w model_name) m))
     = RegistryDoc (delete model_name models).
Proof.
  intros Hreg.
  destruct (remove_model_cases w model_name models m Hreg)
    as [(Hmgr & _) | (record & _ & _ & Hmgr & _)].
  - left. by rewrite Hmgr.
  - right. by rewrite Hmgr.
Qed.

(** X6: a download and a removal, whatever their result, change the
    information of no model but the one they are about: the canonical
    name of the model downloaded, the name removed. *)
Theorem other_models_are_untouched (w : World)
    (models : gmap string InstalledModel) (m : Machine) (other : string) :
  registry (manager m) = RegistryDoc models ->
  (forall model_id quant_type,
     (forall entry, config.SUPPORTED_MODELS !! model_id = Some entry ->
                    config.model_name entry <> other) ->
     outcome (get_model_info other)
             (final (download_model w model_id quant_type) m)
     = outcome (get_model_info other) m)
  /\ (forall model_name,
        model_name <> other ->
        outcome (get_model_info other) (final (remove_model w model_name) m)
        = outcome (get_model_info other) m).
Proof.
  intros Hreg. rewrite (get_model_info_registry other models m Hreg). split.
  - intros model_id quant_type Hother.
    destruct (download_model_registry w model_id quant_type models m Hreg)
      as [Hreg' | (entry & qt & Hentry & Hreg')];
      rewrite (get_model_info_registry _ _ _ Hreg'); [done |].
    by rewrite lookup_insert_ne by eauto.
  - intros model_name Hother.
    destruct (remove_model_registry w model_name models m Hreg) as [Hreg' | Hreg'];
      rewrite (get_model_info_registry _ _ _ Hreg'); [done |].
    by rewrite lookup_delete_ne.
Qed.

Lemma other_models_are_untouched_witness :
  outcome (get_model_info "m")
          (final (download_model (Demo.calm "x86_64")
                    "microsoft/BitNet-b1.58-2B-4T" None)
                 (Demo.machine_on (Demo.calm "x86_64") Demo.one_model))
  = outcome (get_model_info "m")
            (Demo.machine_on (Demo.calm "x86_64") Demo.one_model).
Proof.
  refine (proj1 (other_models_are_untouched (Demo.calm "x86_64")
                   {["m" := Demo.installed "m" "i2_s"]}
                   (Demo.machine_on (Demo.calm "x86_64") Demo.one_model)
                   "m" eq_refl)
            "microsoft/BitNet-b1.58-2B-4T" None _).
  intros entry [= <-]. discriminate.
Defined.

(** X7: if every record of the registry is stored under its own model
    name, that is still so after a download and after a removal,
    whatever their result. *)
Theorem registry_stays_well_keyed (w : World)
    (models : gmap string InstalledModel) (m : Machine) :
  registry (manager m) = RegistryDoc models ->
  well_keyed models ->
  (forall model_id quant_type,
     exists models',
       registry (manager (final (download_model w model_id quant_type) m))
       = RegistryDoc models' /\ well_keyed models')
  /\ (forall model_name,
        exists models',
          registry (manager (final (remove_model w model_name) m))
          = RegistryDoc models' /\ well_keyed models').
Proof.
  intros Hreg Hkeys. split.
  - intros model_id quant_type.
    destruct (download_model_registry w model_id quant_type models m Hreg)
      as [Hreg' | (entry & qt & _ & Hreg')]; eexists; (split; [exact Hreg' |]);
      [done |].
    by apply map_Forall_insert_2.
  - intros model_name.
    destruct (remove_model_registry w model_name models m Hreg) as [Hreg' | Hreg'];
      eexists; (split; [exact Hreg' |]); [done |].
    by apply map_Forall_delete.
Qed.

Lemma registry_stays_well_keyed_witness :
  exists models',
    registry (manager (final (download_model (Demo.calm "x86_64")
                                "microsoft/BitNet-b1.58-2B-4T" None)
                             (Demo.machine_on (Demo.calm "x86_64")
                                Demo.one_model)))
    = RegistryDoc models' /\ well_keyed models'.
Proof.
  refine (proj1 (registry_stays_well_keyed (Demo.calm "x86_64")
                   {["m" := Demo.installed "m" "i2_s"]}
                   (Demo.machine_on (Demo.calm "x86_64") Demo.one_model)
                   eq_refl _)
            "microsoft/BitNet-b1.58-2B-4T" None).
  apply map_Forall_singleton. reflexivity.
Defined.

(** X8: after a removal that returns true the model is gone for every
    query: it has neither path nor information, and a second removal
    returns false and leaves the manager as the first one left it. *)
Theorem removed_model_is_gone (w w' : World) (model_name : string)
    (models : gmap string InstalledModel) (m : Machine) :
  registry (manager m) = RegistryDoc models ->
  outcome (remove_model w model_name) m = Ok true ->
  outcome (get_model_path model_name) (final (remove_model w model_name) m)
  = Ok None
  /\ outcome (get_model_info model_name) (final (remove_model w model_name) m)
     = Ok None
  /\ outcome (remove_model w' model_name) (final (remove_model w model_name) m)
     = Ok false
  /\ manager (final (remove_model w' model_name)
                (final (remove_model w model_name) m))
     = manager (final (remove_model w model_name) m).
Proof.
  intros Hreg Hok.
  destruct (remove_model_cases w model_name models m Hreg)
    as [(_ & Hfalse & _) | (record & _ & _ & Hmgr & _)]; [congruence |].
  assert (registry (manager (final (remove_model w model_name) m))
          = RegistryDoc (delete model_name models)) as Hreg'
    by (by rewrite Hmgr).
  rewrite (get_model_path_registry _ _ _ Hreg'),
    (get_model_info_registry _ _ _ Hreg'), lookup_delete_eq.
  split; [done | split; [done |]].
  destruct (remove_model_cases w' model_name _ _ Hreg')
    as [(Hmgr2 & Hfalse & _) | (record' & Hsome & _)]; [done |].
  by rewrite lookup_delete_eq in Hsome.
Qed.

Lemma removed_model_is_gone_witness :
  outcome (get_model_path "m")
          (final (remove_model (Demo.calm "x86_64") "m")
                 (Demo.machine_on (Demo.calm "x86_64") Demo.one_model))
  = Ok None
  /\ outcome (get_model_info "m")
             (final (remove_model (Demo.calm "x86_64") "m")
                    (Demo.machine_on (Demo.calm "x86_64") Demo.one_model))
     = Ok None
  /\ outcome (remove_model (Demo.calm "x86_64") "m")
             (final (remove_model (Demo.calm "x86_64") "m")
                    (Demo.machine_on (Demo.calm "x86_64") Demo.one_model))
     = Ok false
  /\ manager (final (remove_model (Demo.calm "x86_64") "m")
                (final (remove_model (Demo.calm "x86_64") "m")
                       (Demo.machine_on (Demo.calm "x86_64") Demo.one_model)))
     = manager (final (remove_model (Demo.calm "x86_64") "m")
                      (Demo.machine_on (Demo.calm "x86_64") Demo.one_model)).
Proof.
  exact (removed_model_is_gone (Demo.calm "x86_64") (Demo.calm "x86_64") "m"
           {["m" := Demo.installed "m" "i2_s"]}
           (Demo.machine_on (Demo.calm "x86_64") Demo.one_model)
           eq_refl eq_refl).
Defined.

(** * More properties of the inference engine *)

(** X9: for a model that is not installed, the four entry points raise
    [ValueError] with the same message before anything else happens: no
    binary is looked for, no process is started, nothing is logged and
    no envelope is delivered, not even the closing one. *)
Theorem inference_on_missing_model (w : World) (model_name prompt : string)
    (p : GenerationParams) (messages : list Message)
    (n_predict threads ctx_size : Z) (temperature : PyFloat) (m : Machine) :
  outcome (get_model_path model_name) m = Ok None ->
  run_inference w model_name prompt p m
  = (Raise (ValueError ("Model " +:+ model_name +:+ " not found")), m)
  /\ (forall (B : Type) (callback : string -> B -> Py B) (b0 : B),
        stream_inference w model_name prompt callback b0 p m
        = (Raise (ValueError ("Model " +:+ model_name +:+ " not found")), m))
  /\ chat_completion w model_name messages n_predict threads ctx_size
       temperature m
     = (Raise (ValueError ("Model " +:+ model_name +:+ " not found")), m)
  /\ stream_chat_completion w model_name messages n_predict threads ctx_size
       temperature m
     = (Raise (ValueError ("Model " +:+ model_name +:+ " not found")), m).
Proof.
  intros Hpath.
  assert (run_inference w model_name prompt p m
          = (Raise (ValueError ("Model " +:+ model_name +:+ " not found")), m))
    as Hrun.
  { unfold run_inference. by rewrite run_bind, get_model_path_run, Hpath. }
  assert (forall (B : Type) (callback : string -> B -> Py B) (b0 : B) prompt' p',
            stream_inference w model_name prompt' callback b0 p' m
            = (Raise (ValueError ("Model " +:+ model_name +:+ " not found")), m))
    as Hstream.
  { intros. unfold stream_inference.
    by rewrite run_bind, get_model_path_run, Hpath. }
  split; [done | split; [by intros; apply Hstream | split]].
  - unfold chat_completion, run_inference.
    by rewrite !run_bind, get_model_path_run, Hpath.
  - unfold stream_chat_completion. by rewrite run_bind, Hstream.
Qed.

Lemma inference_on_missing_model_witness :
  run_inference (Demo.calm "x86_64") "ghost" "Hi" Demo.params
    (Demo.machine_on (Demo.calm "x86_64") Demo.one_model)
  = (Raise (ValueError "Model ghost not found"),
     Demo.machine_on (Demo.calm "x86_64") Demo.one_model).
Proof.
  exact (proj1 (inference_on_missing_model (Demo.calm "x86_64") "ghost" "Hi"
                  Demo.params [] 128 4 2048 {| str_float := "0.8" |}
                  (Demo.machine_on (Demo.calm "x86_64") Demo.one_model)
                  eq_refl)).
Defined.



(** X11: when the model is installed, the binary is found and the
    process exits with 0, [run_inference] returns what the process wrote
    to its standard output, unchanged. *)
Theorem run_inference_returns_stdout (w : World) (model_name prompt : string)
    (p : GenerationParams) (m : Machine) (model_path llama_cli out err : string) :
  outcome (get_model_path model_name) m = Ok (Some model_path) ->
  outcome (_get_llama_cli_path w (recursion_limit w)) m = Ok llama_cli ->
  (forall cmd, subprocess_run w cmd = Completed (Exited 0) out err) ->
  outcome (run_inference w model_name prompt p) m = Ok out.
Proof.
  intros Hpath Hcli Hrun.
  destruct (get_llama_cli_path_run w (recursion_limit w) m) as (evs & _ & Hres).
  unfold outcome, run_inference.
  rewrite run_bind, get_model_path_run, Hpath, run_bind, Hres, Hcli.
  destruct (PyStr.endswith llama_cli "mock_llama_cli.py");
    unfold try_except, run_checked; rewrite !run_bind; unfold emit;
    by rewrite Hrun.
Qed.

Lemma run_inference_returns_stdout_witness :
  outcome (run_inference (Demo.printing "Hello") "m" "Hi" Demo.params)
          (Demo.machine_on (Demo.printing "Hello") Demo.one_model)
  = Ok "Hello".
Proof.
  exact (run_inference_returns_stdout (Demo.printing "Hello") "m" "Hi"
           Demo.params (Demo.machine_on (Demo.printing "Hello") Demo.one_model)
           "/app/models/m/ggml-model-i2_s.gguf"
           "/usr/bin/python3 /app/mock_llama_cli.py" "Hello" EmptyString
           eq_refl eq_refl (fun cmd => eq_refl)).
Defined.

(** X12: an exception of starting the process that is not a
    [CalledProcessError], such as the operating system refusing to run
    the binary, leaves [run_inference] as it is, not as a
    [RuntimeError]. *)
Theorem run_inference_passes_spawn_errors (w : World)
    (model_name prompt : string) (p : GenerationParams) (m : Machine)
    (model_path llama_cli : string) (e : PyExc) :
  outcome (get_model_path model_name) m = Ok (Some model_path) ->
  outcome (_get_llama_cli_path w (recursion_limit w)) m = Ok llama_cli ->
  (forall cmd, subprocess_run w cmd = SpawnRaises e) ->
  is_CalledProcessError e = false ->
  outcome (run_inference w model_name prompt p) m = Raise e.
Proof.
  intros Hpath Hcli Hrun He.
  destruct (get_llama_cli_path_run w (recursion_limit w) m) as (evs & _ & Hres).
  unfold outcome, run_inference.
  rewrite run_bind, get_model_path_run, Hpath, run_bind, Hres, Hcli.
  destruct (PyStr.endswith llama_cli "mock_llama_cli.py");
    unfold try_except, run_checked; rewrite !run_bind; unfold emit;
    rewrite Hrun; cbn [fst snd raise]; by rewrite He.
Qed.

Lemma run_inference_passes_spawn_errors_witness :
  outcome (run_inference Demo.unrunnable "m" "Hi" Demo.params)
          (Demo.machine_on Demo.unrunnable Demo.one_model)
  = Raise (OSError "[Errno 8] Exec format error").
Proof.
  exact (run_inference_passes_spawn_errors Demo.unrunnable "m" "Hi" Demo.params
           (Demo.machine_on Demo.unrunnable Demo.one_model)
           "/app/models/m/ggml-model-i2_s.gguf"
           "/usr/bin/python3 /app/mock_llama_cli.py"
           (OSError "[Errno 8] Exec format error")
           eq_refl eq_refl (fun cmd => eq_refl) eq_refl).
Defined.

(** What the body of the [try] of [stream_inference] comes to. *)
Lemma popen_and_read_outcome {B} (w : World) (cmd : Cmd)
    (callback : string -> B -> Py B) (b0 : B) (label : string) (m : Machine) :
  match subprocess_popen w cmd with
  | PopenRaises e =>
      outcome (popen_and_read w cmd callback b0 label) m = Raise e
  | Streamed lines st err =>
      outcome (popen_and_read w cmd callback b0 label) m
      = if returncode st =? 0
        then Ok (fst (read_stdout callback lines b0
                        (add_event (EvSpawn cmd) m)))
        else Raise (RuntimeError (label +:+ err))
  end.
Proof.
  unfold outcome, popen_and_read. rewrite run_bind. unfold emit.
  destruct (subprocess_popen w cmd) as [e|lines st err]; [done |].
  rewrite run_bind. cbv beta. unfold add_event.
  destruct (read_stdout callback lines b0 _) as [b m1].
  by destruct (returncode st =? 0).
Qed.

(** X13: once the model and the binary are found, [stream_inference]
    raises nothing but [RuntimeError], whatever goes wrong with the
    process and whatever the callback does. *)
Theorem stream_inference_raises_only_RuntimeError {B : Type} (w : World)
    (model_name prompt : string) (callback : string -> B -> Py B) (b0 : B)
    (p : GenerationParams) (m : Machine) (model_path llama_cli : string) :
  outcome (get_model_path model_name) m = Ok (Some model_path) ->
  outcome (_get_llama_cli_path w (recursion_limit w)) m = Ok llama_cli ->
  (exists b, outcome (stream_inference w model_name prompt callback b0 p) m = Ok b)
  \/ (exists msg,
        outcome (stream_inference w model_name prompt callback b0 p) m
        = Raise (RuntimeError msg)).
Proof.
  intros Hpath Hcli.
  destruct (get_llama_cli_path_run w (recursion_limit w) m) as (evs & _ & Hres).
  unfold outcome, stream_inference.
  rewrite run_bind, get_model_path_run, Hpath, run_bind, Hres, Hcli.
  destruct (PyStr.endswith llama_cli "mock_llama_cli.py"); unfold try_except;
    match goal with |- context [popen_and_read w ?cmd callback b0 ?label ?m1] =>
      pose proof (popen_and_read_outcome w cmd callback b0 label m1) as Hout;
      unfold outcome in Hout;
      destruct (popen_and_read w cmd callback b0 label m1) as [[b|e] m2]
    end; simpl; eauto.
Qed.

Lemma stream_inference_raises_only_RuntimeError_witness :
  (exists b,
     outcome (stream_inference (Demo.stream_failing ["a"] "boom") "m" "Hi"
                (fun (line : string) (b : unit) => mret b) tt Demo.params)
             (Demo.machine_on (Demo.stream_failing ["a"] "boom") Demo.one_model)
     = Ok b)
  \/ (exists msg,
        outcome (stream_inference (Demo.stream_failing ["a"] "boom") "m" "Hi"
                   (fun (line : string) (b : unit) => mret b) tt Demo.params)
                (Demo.machine_on (Demo.stream_failing ["a"] "boom")
                   Demo.one_model)
        = Raise (RuntimeError msg)).
Proof.
  exact (stream_inference_raises_only_RuntimeError
           (Demo.stream_failing ["a"] "boom") "m" "Hi"
           (fun (line : string) (b : unit) => mret b) tt Demo.params
           (Demo.machine_on (Demo.stream_failing ["a"] "boom") Demo.one_model)
           "/app/models/m/ggml-model-i2_s.gguf"
           "/usr/bin/python3 /app/mock_llama_cli.py" eq_refl eq_refl).
Defined.

Lemma read_stdout_pure {B} (f : B -> string -> B) (lines : list string)
    (b : B) (m : Machine) :
  read_stdout (fun line b => mret (f b line)) lines b m
  = (fold_left f lines b, m).
Proof. revert b. induction lines as [|line rest IH]; intros b; simpl; [done | apply IH]. Qed.

(** X14: when the process exits with 0, a callback that raises nothing
    has been given every line that the process wrote, once each and in
    the order written: the state it ends with is the fold of the
    callback over the lines. *)
Theorem stream_inference_delivers_lines_in_order {B : Type} (w : World)
    (model_name prompt : string) (f : B -> string -> B) (b0 : B)
    (p : GenerationParams) (m : Machine) (model_path llama_cli : string)
    (lines : list string) (err : string) :
  outcome (get_model_path model_name) m = Ok (Some model_path) ->
  outcome (_get_llama_cli_path w (recursion_limit w)) m = Ok llama_cli ->
  (forall cmd, subprocess_popen w cmd = Streamed lines (Exited 0) err) ->
  outcome (stream_inference w model_name prompt
             (fun line b => mret (f b line)) b0 p) m
  = Ok (fold_left f lines b0).
Proof.
  intros Hpath Hcli Hpopen.
  destruct (get_llama_cli_path_run w (recursion_limit w) m) as (evs & _ & Hres).
  unfold outcome, stream_inference.
  rewrite run_bind, get_model_path_run, Hpath, run_bind, Hres, Hcli.
  destruct (PyStr.endswith llama_cli "mock_llama_cli.py"); unfold try_except;
    match goal with |- context [popen_and_read w ?cmd ?cb b0 ?label ?m1] =>
      pose proof (popen_and_read_outcome w cmd cb b0 label m1) as Hout;
      rewrite Hpopen in Hout; unfold outcome in Hout;
      destruct (popen_and_read w cmd cb b0 label m1) as [r m2]
    end; simpl in *; subst r; by rewrite read_stdout_pure.
Qed.

Lemma stream_inference_delivers_lines_in_order_witness :
  outcome (stream_inference (Demo.streaming ["a"; "b"; "c"]) "m" "Hi"
             (fun line queue => mret (queue ++ [line])) [] Demo.params)
          (Demo.machine_on (Demo.streaming ["a"; "b"; "c"]) Demo.one_model)
  = Ok (fold_left (fun queue line => queue ++ [line]) ["a"; "b"; "c"] []).
Proof.
  exact (stream_inference_delivers_lines_in_order
           (Demo.streaming ["a"; "b"; "c"]) "m" "Hi"
           (fun queue line => queue ++ [line]) [] Demo.params
           (Demo.machine_on (Demo.streaming ["a"; "b"; "c"]) Demo.one_model)
           "/app/models/m/ggml-model-i2_s.gguf"
           "/usr/bin/python3 /app/mock_llama_cli.py" ["a"; "b"; "c"] EmptyString
           eq_refl eq_refl (fun cmd => eq_refl)).
Defined.

Section FailedStream.

Context (w : World) (model_name : string).
Context (pre : list string) (chunk : string) (post : list string).
Context (Hquiet : PyStr.contains "Assistant: " (PyStr.join pre) = false).
Context (Hcue : PyStr.contains "Assistant: " (PyStr.join pre +:+ chunk) = true).

Lemma popen_and_read_fails (cmd : Cmd) (label err : string) (st : ExitStatus)
    (m : Machine) :
  subprocess_popen w cmd = Streamed (pre ++ chunk :: post) st err ->
  returncode st <> 0 ->
  popen_and_read w cmd (stream_callback w model_name) EmptyString label m
  = (Raise (RuntimeError (label +:+ err)),
     {| manager := manager m;
        ticks := ticks m + S (length post);
        events := ((events m ++ [EvSpawn cmd]) ++
          map EvEnvelope
            (delta_envelopes w model_name (ticks m) (chunk :: post))) ++
          [EvLog "inference" "ERROR" (label +:+ err)] |}).
Proof.
  intros Hpopen Hrc. unfold popen_and_read. rewrite run_bind. unfold emit.
  rewrite Hpopen, run_bind. cbv beta.
  rewrite read_stdout_quiet by (by rewrite str_app_nil_l).
  rewrite read_stdout_emits.
  - apply Z.eqb_neq in Hrc. rewrite Hrc. reflexivity.
  - intros chunk' rest' [= <- <-]. by rewrite str_app_nil_l.
Qed.

End FailedStream.

(** X15: when the process writes its chunks and then does not exit with
    0, the envelopes of the chunks are delivered as for a process that
    succeeds, the closing envelope is not, and the call raises a
    [RuntimeError] whose message ends with the standard error of the
    process, as it was written. *)
Theorem stream_chat_completion_fails_after_chunks (w : World)
    (model_name : string) (messages : list Message)
    (n_predict threads ctx_size : Z) (temperature : PyFloat) (m : Machine)
    (model_path llama_cli err : string) (st : ExitStatus)
    (pre : list string) (chunk : string) (post : list string) :
  outcome (get_model_path model_name) m = Ok (Some model_path) ->
  outcome (_get_llama_cli_path w (recursion_limit w)) m = Ok llama_cli ->
  (forall cmd, subprocess_popen w cmd = Streamed (pre ++ chunk :: post) st err) ->
  returncode st <> 0 ->
  PyStr.contains "Assistant: " (PyStr.join pre) = false ->
  PyStr.contains "Assistant: " (PyStr.join pre +:+ chunk) = true ->
  outcome (stream_chat_completion w model_name messages n_predict threads
             ctx_size temperature) m
  = Raise (RuntimeError
             (if PyStr.endswith llama_cli "mock_llama_cli.py"
              then "Error streaming inference with mock: "
                     +:+ "Error running inference with mock: " +:+ err
              else "Error streaming inference: "
                     +:+ "Error running inference: " +:+ err))
  /\ envelopes
       (new_events (stream_chat_completion w model_name messages n_predict
                      threads ctx_size temperature) m)
     = delta_envelopes w model_name (ticks m) (chunk :: post).
Proof.
  intros Hpath Hcli Hpopen Hrc Hquiet Hcue.
  destruct (get_llama_cli_path_run w (recursion_limit w) m) as (evs & Henv & Hres).
  rewrite Hcli in Hres.
  unfold new_events, outcome, final, stream_chat_completion.
  rewrite run_bind. unfold stream_inference.
  rewrite run_bind, get_model_path_run, Hpath, run_bind, Hres.
  destruct (PyStr.endswith llama_cli "mock_llama_cli.py");
    unfold try_except;
    rewrite (popen_and_read_fails w model_name pre chunk post Hquiet Hcue)
      with (err := err) (st := st) by done;
    cbn [is_Exception]; unfold engine_log; rewrite run_bind; unfold emit;
    cbn [fst snd manager ticks events str_exc raise].
  all: split; [done |].
  all: rewrite <- !(assoc_L (++)), drop_app_length;
    rewrite !envelopes_app, Henv, envelopes_map; simpl;
    by rewrite app_nil_r.
Qed.

Lemma stream_chat_completion_fails_after_chunks_witness :
  outcome (stream_chat_completion
             (Demo.stream_failing ["Assistant: "; "Hel"] "boom") "m" [] 128 4
             2048 {| str_float := "0.8" |})
          (Demo.machine_on (Demo.stream_failing ["Assistant: "; "Hel"] "boom")
             Demo.one_model)
  = Raise (RuntimeError
             ("Error streaming inference with mock: "
                +:+ "Error running inference with mock: " +:+ "boom"))
  /\ envelopes
       (new_events
          (stream_chat_completion
             (Demo.stream_failing ["Assistant: "; "Hel"] "boom") "m" [] 128 4
             2048 {| str_float := "0.8" |})
          (Demo.machine_on (Demo.stream_failing ["Assistant: "; "Hel"] "boom")
             Demo.one_model))
     = delta_envelopes (Demo.stream_failing ["Assistant: "; "Hel"] "boom") "m" 0
         ["Assistant: "; "Hel"].
Proof.
  refine (stream_chat_completion_fails_after_chunks
            (Demo.stream_failing ["Assistant: "; "Hel"] "boom") "m" [] 128 4
            2048 {| str_float := "0.8" |}
            (Demo.machine_on (Demo.stream_failing ["Assistant: "; "Hel"] "boom")
               Demo.one_model)
            "/app/models/m/ggml-model-i2_s.gguf"
            "/usr/bin/python3 /app/mock_llama_cli.py" "boom" (Exited 1)
            [] "Assistant: " ["Hel"]
            eq_refl eq_refl (fun cmd => eq_refl) _ eq_refl eq_refl).
  discriminate.
Defined.

(** X16: when the process exits with 0 and what it wrote never contains
    the assistant cue, nothing of it is delivered: the only envelope is
    the closing one. *)
Theorem stream_chat_completion_without_cue (w : World) (model_name : string)
    (messages : list Message) (n_predict threads ctx_size : Z)
    (temperature : PyFloat) (m : Machine) (model_path llama_cli err : string)
    (lines : list string) :
  outcome (get_model_path model_name) m = Ok (Some model_path) ->
  outcome (_get_llama_cli_path w (recursion_limit w)) m = Ok llama_cli ->
  (forall cmd, subprocess_popen w cmd = Streamed lines (Exited 0) err) ->
  PyStr.contains "Assistant: " (PyStr.join lines) = false ->
  outcome (stream_chat_completion w model_name messages n_predict threads
             ctx_size temperature) m = Ok tt
  /\ envelopes
       (new_events (stream_chat_completion w model_name messages n_predict
                      threads ctx_size temperature) m)
     = [final_envelope model_name (time_time w (ticks m))].
Proof.
  intros Hpath Hcli Hpopen Hquiet.
  destruct (get_llama_cli_path_run w (recursion_limit w) m) as (evs & Henv & Hres).
  rewrite Hcli in Hres.
  assert (forall m1,
            read_stdout (stream_callback w model_name) lines EmptyString m1
            = (PyStr.join lines, m1)) as Hread.
  { intros m1.
    rewrite <- (app_nil_r lines) at 1.
    rewrite read_stdout_quiet by (by rewrite str_app_nil_l).
    by rewrite str_app_nil_l. }
  unfold new_events, outcome, final, stream_chat_completion.
  rewrite run_bind. unfold stream_inference.
  rewrite run_bind, get_model_path_run, Hpath, run_bind, Hres.
  destruct (PyStr.endswith llama_cli "mock_llama_cli.py");
    unfold try_except, popen_and_read; rewrite run_bind; unfold emit;
    rewrite Hpopen, run_bind; cbv beta; rewrite Hread;
    cbn [returncode Z.of_N Z.eqb negb fst snd];
    unfold send_final, import_time, emit, mbind, mret, Py_bind, Py_ret, bind, ret;
    cbn [fst snd manager ticks events];
    (split; [done |]);
    rewrite <- !(assoc_L (++)), drop_app_length;
    by rewrite !envelopes_app, Henv.
Qed.

Lemma stream_chat_completion_without_cue_witness :
  outcome (stream_chat_completion (Demo.streaming ["Hello"; "there"]) "m" []
             128 4 2048 {| str_float := "0.8" |})
          (Demo.machine_on (Demo.streaming ["Hello"; "there"]) Demo.one_model)
  = Ok tt
  /\ envelopes
       (new_events
          (stream_chat_completion (Demo.streaming ["Hello"; "there"]) "m" []
             128 4 2048 {| str_float := "0.8" |})
          (Demo.machine_on (Demo.streaming ["Hello"; "there"]) Demo.one_model))
     = [final_envelope "m" (time_time (Demo.streaming ["Hello"; "there"]) 0)].
Proof.
  exact (stream_chat_completion_without_cue (Demo.streaming ["Hello"; "there"])
           "m" [] 128 4 2048 {| str_float := "0.8" |}
           (Demo.machine_on (Demo.streaming ["Hello"; "there"]) Demo.one_model)
           "/app/models/m/ggml-model-i2_s.gguf"
           "/usr/bin/python3 /app/mock_llama_cli.py" EmptyString
           ["Hello"; "there"] eq_refl eq_refl (fun cmd => eq_refl) eq_refl).
Defined.

(** What [run_inference] comes to once the model and the binary are
    found: it is decided by the process alone. *)
Lemma run_inference_run (w : World) (model_name prompt : string)
    (p : GenerationParams) (m : Machine) (model_path llama_cli : string) :
  outcome (get_model_path model_name) m = Ok (Some model_path) ->
  outcome (_get_llama_cli_path w (recursion_limit w)) m = Ok llama_cli ->
  exists (cmd : Cmd) (label : string) (m1 : Machine),
    ticks m1 = ticks m /\ manager m1 = manager m
    /\ run_inference w model_name prompt p m
       = try_except
           (r ← run_checked w cmd; mret (fst r))
           is_CalledProcessError
           (fun e =>
              engine_log "ERROR" (label +:+ str_exc e);;
              engine_log "ERROR"
                ("stderr: " +:+
                   match e with
                   | CalledProcessError _ _ _ err => err
                   | _ => EmptyString
                   end);;
              raise (RuntimeError (label +:+ str_exc e)))
           m1.
Proof.
  intros Hpath Hcli.
  destruct (get_llama_cli_path_run w (recursion_limit w) m) as (evs & _ & Hres).
  rewrite Hcli in Hres. unfold run_inference.
  rewrite run_bind, get_model_path_run, Hpath, run_bind, Hres.
  destruct (PyStr.endswith llama_cli "mock_llama_cli.py");
    eexists _, _, _; (split; [| split; [| reflexivity]]); done.
Qed.

Lemma run_checked_run (w : World) (cmd : Cmd) (m : Machine) :
  run_checked w cmd m
  = (match subprocess_run w cmd with
     | SpawnRaises e => Raise e
     | Completed st out err =>
         if returncode st =? 0 then Ok (out, err)
         else Raise (CalledProcessError st cmd out err)
     end, add_event (EvSpawn cmd) m).
Proof.
  unfold run_checked. rewrite run_bind. unfold emit.
  destruct (subprocess_run w cmd) as [e|st out err]; [done |].
  by destruct (returncode st =? 0).
Qed.

(** X17: when the process exits with 0 after writing the prompt back
    followed by a reply that does not contain the assistant cue, the
    content of the completion is that reply, stripped: nothing of the
    prompt gets into it, whatever the messages contain. *)
Theorem chat_completion_drops_echoed_prompt (w : World) (model_name : string)
    (messages : list Message) (n_predict threads ctx_size : Z)
    (temperature : PyFloat) (m : Machine)
    (model_path llama_cli reply err : string) :
  outcome (get_model_path model_name) m = Ok (Some model_path) ->
  outcome (_get_llama_cli_path w (recursion_limit w)) m = Ok llama_cli ->
  (forall cmd,
     subprocess_run w cmd
     = Completed (Exited 0) (chat_prompt messages +:+ reply) err) ->
  PyStr.contains "Assistant: " reply = false ->
  outcome (chat_completion w model_name messages n_predict threads ctx_size
             temperature) m
  = Ok (completion_of model_name (time_time w (ticks m)) (PyStr.strip reply)).
Proof.
  intros Hpath Hcli Hrun Hreply.
  unfold outcome, chat_completion. rewrite run_bind.
  match goal with |- context [run_inference w model_name ?prompt ?p m] =>
    destruct (run_inference_run w model_name prompt p m model_path llama_cli
                Hpath Hcli) as (cmd & label & m1 & Hticks & _ & ->)
  end.
  unfold try_except. rewrite run_bind, run_checked_run, Hrun.
  cbn [returncode Z.of_N Z.eqb fst snd mret Py_ret ret].
  unfold parse_completion, split, import_time. py_unfold. cbn [fst snd].
  unfold chat_prompt. rewrite str_app_assoc.
  rewrite (split_rounds_last "A" "ssistant: " reply eq_refl Hreply).
  - unfold ret, completion_of. cbn [fst snd ticks add_event]. by rewrite Hticks.
  - unfold PyStr.len. rewrite !str_length_app. simpl. lia.
Qed.

Lemma chat_completion_drops_echoed_prompt_witness :
  outcome
    (chat_completion
       (Demo.printing
          (chat_prompt [ {| role := "user"; content := "Say Assistant: twice" |} ]
             +:+ PyStr.LF +:+ "Done." +:+ PyStr.LF))
       "m" [ {| role := "user"; content := "Say Assistant: twice" |} ]
       128 4 2048 {| str_float := "0.8" |})
    (Demo.machine_on
       (Demo.printing
          (chat_prompt [ {| role := "user"; content := "Say Assistant: twice" |} ]
             +:+ PyStr.LF +:+ "Done." +:+ PyStr.LF))
       Demo.one_model)
  = Ok (completion_of "m" 1700000000
          (PyStr.strip (PyStr.LF +:+ "Done." +:+ PyStr.LF))).
Proof.
  exact (chat_completion_drops_echoed_prompt
           (Demo.printing
              (chat_prompt
                 [ {| role := "user"; content := "Say Assistant: twice" |} ]
                 +:+ PyStr.LF +:+ "Done." +:+ PyStr.LF))
           "m" [ {| role := "user"; content := "Say Assistant: twice" |} ]
           128 4 2048 {| str_float := "0.8" |}
           (Demo.machine_on
              (Demo.printing
                 (chat_prompt
                    [ {| role := "user"; content := "Say Assistant: twice" |} ]
                    +:+ PyStr.LF +:+ "Done." +:+ PyStr.LF))
              Demo.one_model)
           "/app/models/m/ggml-model-i2_s.gguf"
           "/usr/bin/python3 /app/mock_llama_cli.py"
           (PyStr.LF +:+ "Done." +:+ PyStr.LF) EmptyString
           eq_refl eq_refl (fun cmd => eq_refl) eq_refl).
Defined.

Lemma lstrip_no_leading_space (s : string) :
  starts_with_space (PyStr.lstrip s) = false.
Proof.
  induction s as [|c s IH]; simpl; [done |].
  destruct (PyStr.isspace c) eqn:Hc; [done | by simpl].
Qed.

Lemma rstrip_no_trailing_space (s : string) :
  ends_with_space (PyStr.rstrip s) = false.
Proof.
  unfold ends_with_space. induction s as [|c s IH]; simpl; [done |].
  destruct (PyStr.rstrip s) as [|d t] eqn:Hr.
  - destruct (PyStr.isspace c) eqn:Hc; simpl; [done | by rewrite Hc].
  - exact IH.
Qed.

Lemma rstrip_keeps_start (s : string) :
  starts_with_space s = false -> starts_with_space (PyStr.rstrip s) = false.
Proof.
  destruct s as [|c s]; simpl; [done |]. intros Hc.
  destruct (PyStr.rstrip s); [by rewrite Hc |]; done.
Qed.

(** X18: the extraction step never raises: whatever the process wrote,
    it returns one completion with one choice, and the content of that
    choice has no white space at either end. *)
Theorem parse_completion_is_total_and_trimmed (w : World)
    (model_name raw : string) (m : Machine) :
  exists text,
    parse_completion w model_name raw m
    = (Ok (completion_of model_name (time_time w (ticks m)) text),
       {| manager := manager m; ticks := S (ticks m); events := events m |})
    /\ starts_with_space text = false
    /\ ends_with_space text = false.
Proof.
  destruct (split_rounds_last_Some (PyStr.len raw) "Assistant: " raw)
    as [piece Hpiece].
  exists (PyStr.strip piece). split; [| split].
  - unfold parse_completion, split, import_time. py_unfold.
    cbn [fst snd]. by rewrite Hpiece.
  - apply rstrip_keeps_start, lstrip_no_leading_space.
  - apply rstrip_no_trailing_space.
Qed.

(** X19: on every machine that the alias table knows, the architecture
    that the manager works with is a fixed point of the table and has
    quantization kinds, the first of which is i2_s; so a download with
    no kind given finds its kind there. *)
Theorem aliased_machines_are_supported (w : World) (a : string) :
  config.ARCH_ALIAS !! platform_machine w = Some a ->
  snd (_get_system_info w) = a
  /\ config.ARCH_ALIAS !! a = Some a
  /\ exists kinds,
       config.SUPPORTED_QUANT_TYPES !! a = Some kinds
       /\ chosen_quant None kinds = Some "i2_s"
       /\ in_list "i2_s" kinds = true.
Proof.
  intros Halias. split; [unfold _get_system_info; by rewrite Halias |].
  assert (map_Forall
            (fun _ a =>
               config.ARCH_ALIAS !! a = Some a
               /\ (a = "x86_64" \/ a = "arm64"))
            config.ARCH_ALIAS) as Hall.
  { apply map_Forall_to_list.
    set (l := map_to_list config.ARCH_ALIAS). vm_compute in l. subst l.
    repeat (apply List.Forall_cons;
              [simpl; split; [reflexivity | first [by left | by right]] |]).
    apply List.Forall_nil. }
  destruct (Hall _ _ Halias) as [Hfix [-> | ->]]; (split; [done |]).
  - exists ["i2_s"; "tl2"]. by vm_compute.
  - exists ["i2_s"; "tl1"]. by vm_compute.
Qed.

Lemma aliased_machines_are_supported_witness :
  snd (_get_system_info (Demo.calm "AMD64")) = "x86_64"
  /\ config.ARCH_ALIAS !! "x86_64" = Some "x86_64"
  /\ exists kinds,
       config.SUPPORTED_QUANT_TYPES !! "x86_64" = Some kinds
       /\ chosen_quant None kinds = Some "i2_s"
       /\ in_list "i2_s" kinds = true.
Proof.
  exact (aliased_machines_are_supported (Demo.calm "AMD64") "x86_64" eq_refl).
Defined.

(** * Properties of the request handlers *)

(** X20: the answers of the inference endpoint.  A model that is not
    installed is answered 404 with the message of the engine.  Once the
    model and the binary are found: a process that exits with 0 is
    answered with what it wrote; one that does not is answered 500; an
    output that cannot be decoded as text is answered 404, since the
    decoding error is a [ValueError]; and an error of the operating
    system is caught by no clause of the handler. *)
Theorem server_run_inference_statuses (w : World) (request : InferenceRequest)
    (m : Machine) :
  (outcome (get_model_path (req_model request)) m = Ok None ->
   server_run_inference w request m
   = (HTTPException 404 ("Model " +:+ req_model request +:+ " not found"), m))
  /\ (forall model_path llama_cli,
        outcome (get_model_path (req_model request)) m = Ok (Some model_path) ->
        outcome (_get_llama_cli_path w (recursion_limit w)) m = Ok llama_cli ->
        (forall out err,
           (forall cmd, subprocess_run w cmd = Completed (Exited 0) out err) ->
           fst (server_run_inference w request m) = Responds out)
        /\ (forall st out err,
              (forall cmd, subprocess_run w cmd = Completed st out err) ->
              returncode st <> 0 ->
              exists detail,
                fst (server_run_inference w request m) = HTTPException 500 detail)
        /\ (forall msg,
              (forall cmd,
                 subprocess_run w cmd = SpawnRaises (UnicodeDecodeError msg)) ->
              fst (server_run_inference w request m) = HTTPException 404 msg)
        /\ (forall msg,
              (forall cmd, subprocess_run w cmd = SpawnRaises (OSError msg)) ->
              fst (server_run_inference w request m) = Unhandled (OSError msg))).
Proof.
  split.
  - intros Hpath. unfold server_run_inference, translate, run_inference.
    by rewrite run_bind, get_model_path_run, Hpath.
  - intros model_path llama_cli Hpath Hcli.
    unfold server_run_inference, translate.
    match goal with |- context [run_inference w ?name ?prompt ?p m] =>
      destruct (run_inference_run w name prompt p m model_path llama_cli
                  Hpath Hcli) as (cmd & label & m1 & _ & _ & ->)
    end.
    unfold try_except. rewrite run_bind, run_checked_run.
    repeat split.
    + intros out err Hrun. by rewrite Hrun.
    + intros st out err Hrun Hrc. rewrite Hrun.
      apply Z.eqb_neq in Hrc. rewrite Hrc.
      cbn [is_CalledProcessError]. unfold engine_log. rewrite !run_bind.
      unfold emit, raise. cbn [fst snd is_ValueError is_RuntimeError]. eauto.
    + intros msg Hrun. by rewrite Hrun.
    + intros msg Hrun. by rewrite Hrun.
Qed.

Lemma server_run_inference_statuses_witness :
  server_run_inference (Demo.calm "x86_64")
    {| req_model := "ghost"; req_prompt := "Hi"; req_n_predict := 128;
       req_threads := 4; req_ctx_size := 2048;
       req_temperature := {| str_float := "0.8" |};
       req_conversation := false |}
    (Demo.machine_on (Demo.calm "x86_64") Demo.one_model)
  = (HTTPException 404 "Model ghost not found",
     Demo.machine_on (Demo.calm "x86_64") Demo.one_model)
  /\ exists detail,
       fst (server_run_inference Demo.failing_mock
              {| req_model := "m"; req_prompt := "Hi"; req_n_predict := 128;
                 req_threads := 4; req_ctx_size := 2048;
                 req_temperature := {| str_float := "0.8" |};
                 req_conversation := false |}
              (Demo.machine_on Demo.failing_mock Demo.one_model))
       = HTTPException 500 detail.
Proof.
  split.
  - exact (proj1 (server_run_inference_statuses (Demo.calm "x86_64")
                    {| req_model := "ghost"; req_prompt := "Hi";
                       req_n_predict := 128; req_threads := 4;
                       req_ctx_size := 2048;
                       req_temperature := {| str_float := "0.8" |};
                       req_conversation := false |}
                    (Demo.machine_on (Demo.calm "x86_64") Demo.one_model))
             eq_refl).
  - refine (proj1 (proj2 (proj2 (server_run_inference_statuses Demo.failing_mock
                      {| req_model := "m"; req_prompt := "Hi";
                         req_n_predict := 128; req_threads := 4;
                         req_ctx_size := 2048;
                         req_temperature := {| str_float := "0.8" |};
                         req_conversation := false |}
                      (Demo.machine_on Demo.failing_mock Demo.one_model))
                    "/app/models/m/ggml-model-i2_s.gguf"
                    "/usr/bin/python3 /app/mock_llama_cli.py" eq_refl eq_refl))
              (Exited 1) EmptyString "boom" (fun cmd => eq_refl) _).
    discriminate.
Defined.

(** X21: when the directory of an installed model cannot be deleted,
    the removal endpoint answers 404 with a message that says the model
    is not found, while the model is still installed: the information
    endpoint goes on answering with its record. *)
Theorem server_remove_model_answers_404_on_failed_deletion (w : World)
    (model_name : string) (models : gmap string InstalledModel)
    (record : InstalledModel) (e : PyExc) (m : Machine) :
  registry (manager m) = RegistryDoc models ->
  models !! model_name = Some record ->
  rmtree w (im_path record) = Some e ->
  fst (server_remove_model w model_name m)
  = HTTPException 404 ("Model " +:+ model_name +:+ " not found")
  /\ fst (server_get_model_info model_name
            (snd (server_remove_model w model_name m)))
     = Responds record.
Proof.
  intros Hreg Hsome Hrm.
  destruct (remove_model_cases w model_name models m Hreg)
    as [(Hmgr & Hfalse & _) | (record' & Hsome' & Hrm' & _)];
    [| congruence].
  unfold server_remove_model, server_get_model_info.
  unfold outcome, final in *.
  destruct (remove_model w model_name m) as [r m1]. simpl in *. subst r.
  simpl. split; [done |].
  rewrite get_model_info_run.
  assert (registry (manager m1) = RegistryDoc models) as Hreg1
    by (by rewrite Hmgr).
  by rewrite (get_model_info_registry _ _ _ Hreg1), Hsome.
Qed.

Lemma server_remove_model_answers_404_on_failed_deletion_witness :
  fst (server_remove_model Demo.stuck_rmtree "m"
         (Demo.machine_on Demo.stuck_rmtree Demo.one_model))
  = HTTPException 404 "Model m not found"
  /\ fst (server_get_model_info "m"
            (snd (server_remove_model Demo.stuck_rmtree "m"
                    (Demo.machine_on Demo.stuck_rmtree Demo.one_model))))
     = Responds (Demo.installed "m" "i2_s").
Proof.
  exact (server_remove_model_answers_404_on_failed_deletion Demo.stuck_rmtree
           "m" {["m" := Demo.installed "m" "i2_s"]} (Demo.installed "m" "i2_s")
           (OSError "[Errno 13] Permission denied: '/app/models/m'")
           (Demo.machine_on Demo.stuck_rmtree Demo.one_model)
           eq_refl eq_refl eq_refl).
Defined.
